(** * The resilient generation client of the health-assistant backend

    A shallow embedding of the two generation paths of the repository:

    - the recommendation path ([extractAiText], [getAccessToken],
      [generateWithVertexAI] and the generation steps of
      [generateHealthRecommendations]), and
    - the chat path of [chatController.js] ([getAccessToken],
      [callGeminiAPI] and the [chat] handler).

    JavaScript values are an inductive type; exceptions are an explicit
    completion type; the identity provider, the upstream HTTP API and the
    clock are an oracle ([World]) that answers from the trace of the effects
    performed so far, and every effect appends one event to that trace.
    Console output is not part of the model. *)

From Stdlib Require Import List String ZArith Bool Lia.
Import ListNotations.
Local Open Scope string_scope.
Local Open Scope list_scope.

#[local] Set Warnings "-register-all".

(** ** JavaScript values *)

Module Js.

(** Decoded JSON plus [undefined]. Numbers are kept as integers: the code
    only ever asks whether a number is zero. Objects are association lists,
    read through [assoc]. *)
Inductive value : Type :=
| VUndefined
| VNull
| VBool (b : bool)
| VNum (n : Z)
| VStr (s : string)
| VArr (items : list value)
| VObj (fields : list (string * value)).

(** A thrown [Error]: its [name] and [message], and for a rejected HTTP
    call that got an answer, the [response] with [status] and [data]. *)
Record HttpResponse : Type := mkResponse { status : Z; data : value }.

Record Error : Type := mkError {
  name : string;
  message : string;
  response : option HttpResponse
}.

Definition new_Error (msg : string) : Error := mkError "Error" msg None.

Definition new_TypeError (msg : string) : Error := mkError "TypeError" msg None.

(** Reading [prop] of [undefined] (the texts are Node's). *)
Definition TypeError (prop : string) : Error :=
  new_TypeError ("Cannot read properties of undefined (reading '" ++ prop ++ "')").

(** Reading [prop] of [null]. *)
Definition TypeError_null (prop : string) : Error :=
  new_TypeError ("Cannot read properties of null (reading '" ++ prop ++ "')").

(** [String(err)], which is [Error.prototype.toString]. *)
Definition String_of_Error (err : Error) : string :=
  if String.eqb (message err) "" then name err
  else if String.eqb (name err) "" then message err
  else name err ++ ": " ++ message err.

(** How a piece of code ends: normally with a value, or by throwing. *)
Inductive completion (A : Type) : Type :=
| Normal (a : A)
| Throw (e : Error).
Arguments Normal {A} a.
Arguments Throw {A} e.

Definition cbind {A B} (c : completion A) (k : A -> completion B) : completion B :=
  match c with
  | Normal a => k a
  | Throw e => Throw e
  end.

(** [try { c } catch (err) { h err }] *)
Definition try_catch {A} (c : completion A) (h : Error -> completion A) : completion A :=
  match c with
  | Normal a => Normal a
  | Throw e => h e
  end.

Notation "x <-! c ;; k" := (cbind c (fun x => k))
  (at level 61, c at next level, right associativity).

Fixpoint assoc (key : string) (fields : list (string * value)) : option value :=
  match fields with
  | [] => None
  | (k, v) :: rest => if String.eqb k key then Some v else assoc key rest
  end.

Definition nullish (v : value) : bool :=
  match v with
  | VUndefined | VNull => true
  | _ => false
  end.

(** ToBoolean *)
Definition truthy (v : value) : bool :=
  match v with
  | VUndefined | VNull => false
  | VBool b => b
  | VNum n => negb (Z.eqb n 0)
  | VStr s => negb (String.eqb s "")
  | VArr _ | VObj _ => true
  end.

(** [a || b] on values already computed ([b] has no effect in this code). *)
Definition js_or (a b : value) : value := if truthy a then a else b.

(** [o.name] on a value that is not [null] or [undefined], for the names
    this code reads ([candidates], [content], [parts], [text], [token],
    [sessionId], ...): none is a built-in property of a string, a number,
    a boolean or an array, so only an object can carry one. *)
Definition get (o : value) (name : string) : value :=
  match o with
  | VObj fields => match assoc name fields with Some v => v | None => VUndefined end
  | _ => VUndefined
  end.

(** [o[0]] on a value that is not [null] or [undefined]. *)
Definition get0 (o : value) : value :=
  match o with
  | VArr items => match items with x :: _ => x | [] => VUndefined end
  | VStr s => match s with String c _ => VStr (String c EmptyString) | EmptyString => VUndefined end
  | VObj fields => match assoc "0" fields with Some v => v | None => VUndefined end
  | _ => VUndefined
  end.

(** The error of reading [prop] of [o], for [o] one of [null] and
    [undefined]. *)
Definition cannot_read (o : value) (prop : string) : Error :=
  match o with
  | VNull => TypeError_null prop
  | _ => TypeError prop
  end.

(** The error of [const { prop, ... } = source] when [source] holds [o],
    one of [null] and [undefined]. *)
Definition cannot_destructure (prop source : string) (o : value) : Error :=
  new_TypeError ("Cannot destructure property '" ++ prop ++ "' of '" ++ source
                 ++ "' as it is "
                 ++ match o with VNull => "null" | _ => "undefined" end ++ ".").

(** [o.name]: a [TypeError] on [null] and [undefined]. *)
Definition member (o : value) (name : string) : completion value :=
  if nullish o then Throw (cannot_read o name) else Normal (get o name).

(** [o[0]]: a [TypeError] on [null] and [undefined]. *)
Definition index0 (o : value) : completion value :=
  if nullish o then Throw (cannot_read o "0") else Normal (get0 o).

(** [const { prop, ... } = source]: the value destructured, or the
    [TypeError] on [null] and [undefined]. *)
Definition destructure (prop source : string) (o : value) : completion value :=
  if nullish o then Throw (cannot_destructure prop source o) else Normal o.

(** Whether converting [v] to a string ends normally. A primitive always
    converts. An object parsed from JSON converts through the inherited
    [toString] unless it has a key [toString] of its own: that key holds a
    JSON value, which cannot be called, and the inherited [valueOf] gives
    back the object, so the conversion throws. An array converts by joining
    its converted elements. Multiplying by a number converts in the same
    cases. *)
Fixpoint convertible (v : value) : bool :=
  match v with
  | VArr items => forallb convertible items
  | VObj fields => match assoc "toString" fields with Some _ => false | None => true end
  | _ => true
  end.

Definition cannot_convert : Error :=
  new_TypeError "Cannot convert object to primitive value".

(** A [${v}] of a template literal whose text goes to the console only:
    what is left of it is whether it throws. *)
Definition interpolate (v : value) : completion unit :=
  if convertible v then Normal tt else Throw cannot_convert.

(** [o?.name] *)
Definition opt_member (o : value) (name : string) : value :=
  if nullish o then VUndefined else get o name.

(** [o?.[0]] *)
Definition opt_index0 (o : value) : value :=
  if nullish o then VUndefined else get0 o.

(** [Array.isArray(v) && v.length > 0] *)
Definition nonempty_array (v : value) : bool :=
  match v with
  | VArr items => (0 <? Z.of_nat (List.length items))%Z
  | _ => false
  end.

End Js.
Import Js.

(** ** The Response Extractor (recommendation path) *)

Definition extractAiText_try (response : value) : completion value :=
  let candidates := opt_member response "candidates" in
  if nonempty_array candidates then
    c0 <-! index0 candidates ;;
    let parts := opt_member (opt_member c0 "content") "parts" in
    if nonempty_array parts then
      p0 <-! index0 parts ;;
      Normal (js_or (opt_member p0 "text") VNull)
    else Normal VNull
  else Normal VNull.

Definition extractAiText (response : value) : completion value :=
  try_catch (extractAiText_try response) (fun _ => Normal VNull).

(** The path the specification names, [candidates[0].content.parts[0].text],
    followed strictly: every layer has to be there with the expected kind.
    [None] is a missing or malformed layer. *)
Definition envelope_text (response : value) : option value :=
  match response with
  | VObj top =>
      match assoc "candidates" top with
      | Some (VArr (VObj c0 :: _)) =>
          match assoc "content" c0 with
          | Some (VObj content) =>
              match assoc "parts" content with
              | Some (VArr (VObj p0 :: _)) => assoc "text" p0
              | _ => None
              end
          | _ => None
          end
      | _ => None
      end
  | _ => None
  end.

Definition envelope (text : value) : value :=
  VObj [("candidates",
         VArr [VObj [("content",
                      VObj [("parts", VArr [VObj [("text", text)]])])]])].


(** ** The environment: identity provider, upstream API, clock *)

Module Env.

(** One [axios.post]. [bearer] is the token placed after [Bearer ] in the
    [Authorization] header. *)
Record Request : Type := mkRequest {
  endpoint : string;
  bearer : value;
  body : value;
  timeout : Z
}.

(** [EvGetAccessToken]: one call of the Credential Provider, the function
    [getAccessToken]; the identity provider behind it is asked
    ([token_reply]) when [auth] was initialised.
    [EvPost]: one outbound HTTP call. *)
Inductive Event : Type :=
| EvGetAccessToken
| EvPost (req : Request).

Definition Trace : Type := list Event.

Record World : Type := mkWorld {
  VERTEX_PROJECT_ID : option string;
  VERTEX_LOCATION : option string;
  (** [false] when [new GoogleAuth(...)] threw at load time and [auth]
      stayed [undefined] *)
  auth : bool;
  (** [auth.getClient()] then [client.getAccessToken()]: the token response,
      or the error one of the two raised; the library's [token] is a string,
      [null] or [undefined] *)
  token_reply : Trace -> completion value;
  (** [axios.post]: resolves on 2xx, rejects otherwise *)
  post_reply : Trace -> Request -> completion HttpResponse;
  (** [new Date().toISOString()] *)
  clock : Trace -> string
}.

(** Effectful code: reads the trace, ends normally or by throwing, and
    leaves the extended trace. *)
Definition M (A : Type) : Type := Trace -> completion A * Trace.

Definition ret {A} (a : A) : M A := fun log => (Normal a, log).

Definition throw {A} (e : Error) : M A := fun log => (Throw e, log).

Definition bind {A B} (c : M A) (k : A -> M B) : M B :=
  fun log =>
    match c log with
    | (Normal a, log') => k a log'
    | (Throw e, log') => (Throw e, log')
    end.

Definition catch {A} (c : M A) (h : Error -> M A) : M A :=
  fun log =>
    match c log with
    | (Normal a, log') => (Normal a, log')
    | (Throw e, log') => h e log'
    end.

Definition lift {A} (c : completion A) : M A := fun log => (c, log).

Definition post (w : World) (req : Request) : M HttpResponse :=
  fun log => (post_reply w log req, log ++ [EvPost req]).

(** [process.env.NAME || fallback] *)
Definition env_or (var : option string) (fallback : string) : string :=
  match var with
  | Some s => if String.eqb s "" then fallback else s
  | None => fallback
  end.

Definition PROJECT_ID (w : World) : string := env_or (VERTEX_PROJECT_ID w) "dolet-app".
Definition LOCATION (w : World) : string := env_or (VERTEX_LOCATION w) "us-central1".

Definition model_endpoint (w : World) (modelName : string) : string :=
  "https://" ++ LOCATION w ++ "-aiplatform.googleapis.com/v1/projects/" ++ PROJECT_ID w
  ++ "/locations/" ++ LOCATION w ++ "/publishers/google/models/" ++ modelName
  ++ ":generateContent".

(** What one pass of a [for (const modelName of modelNames)] body with a
    [return] in it does: leave the function, or go on with [lastError]. *)
Inductive Step : Type :=
| Return (v : value)
| Continue (lastError : option Error).

(** [lastError || new Error(exhausted)] *)
Definition or_new_Error (lastError : option Error) (exhausted : string) : Error :=
  match lastError with Some e => e | None => new_Error exhausted end.

(** [for (const modelName of modelNames) { attempt }
     throw lastError || new Error(exhausted)] *)
Fixpoint for_of (attempt : string -> option Error -> Trace -> Step * Trace)
    (exhausted : string) (modelNames : list string) (lastError : option Error)
    : M value :=
  fun log =>
    match modelNames with
    | [] =>
        (Throw (or_new_Error lastError exhausted), log)
    | modelName :: rest =>
        match attempt modelName lastError log with
        | (Return v, log') => (Normal v, log')
        | (Continue lastError', log') => for_of attempt exhausted rest lastError' log'
        end
    end.

Definition posts_of (log : Trace) : list Request :=
  flat_map (fun ev => match ev with EvPost r => [r] | EvGetAccessToken => [] end) log.

Definition token_fetches (log : Trace) : nat :=
  List.length (filter (fun ev => match ev with EvGetAccessToken => true | _ => false end) log).

(** The answers the upstream gives when [reqs] are posted one after the
    other starting from [log]. *)
Fixpoint replies (w : World) (reqs : list Request) (log : Trace)
    : list (completion HttpResponse) :=
  match reqs with
  | [] => []
  | r :: rest => post_reply w log r :: replies w rest (log ++ [EvPost r])
  end.

(** The errors among a list of answers, in order. *)
Definition raised (answers : list (completion HttpResponse)) : list Error :=
  flat_map (fun c => match c with Throw e => [e] | Normal _ => [] end) answers.

Definition is_raise (c : completion HttpResponse) : bool :=
  match c with Throw _ => true | Normal _ => false end.

(** A loop body of the shape both paths have: post [mk modelName]; a
    rejected call goes on with its error; a resolved call returns what
    [accept] makes of it, or goes on with [lastError] as it was. *)
Definition attempt_of (w : World) (mk : string -> Request)
    (accept : HttpResponse -> option value)
    (modelName : string) (lastError : option Error) : Trace -> Step * Trace :=
  fun log =>
    match post_reply w log (mk modelName) with
    | Normal resp =>
        match accept resp with
        | Some v => (Return v, log ++ [EvPost (mk modelName)])
        | None => (Continue lastError, log ++ [EvPost (mk modelName)])
        end
    | Throw err => (Continue (Some err), log ++ [EvPost (mk modelName)])
    end.

(** An answer after which such a loop goes on. *)
Definition passed_over (accept : HttpResponse -> option value)
    (c : completion HttpResponse) : bool :=
  match c with
  | Throw _ => true
  | Normal resp => match accept resp with Some _ => false | None => true end
  end.

(** [lastError] after the answers: the last error raised, if any. *)
Definition last_raised (answers : list (completion HttpResponse))
    (lastError : option Error) : option Error :=
  last (map Some (raised answers)) lastError.

End Env.
Import Env.

Notation "x <- c ;; k" := (bind c (fun x => k))
  (at level 61, c at next level, right associativity).

Definition user_turn (text : value) : value :=
  VObj [("role", VStr "user"); ("parts", VArr [VObj [("text", text)]])].

(** [res.status(code).json(json)] *)
Record Reply : Type := mkReply { code : Z; json : value }.

(** ** The recommendation path *)

Module Recommendation.

Definition getAccessToken (w : World) : M value :=
  fun log =>
    (try_catch
       (if auth w
        then tokenResponse <-! token_reply w log ;; member tokenResponse "token"
        else Throw (TypeError "getClient"))
       (fun err => Throw (new_Error ("Authentication failed: " ++ message err))),
     log ++ [EvGetAccessToken]).

Definition modelNames : list string :=
  ["gemini-2.5-pro"; "gemini-2.5-flash"; "gemini-1.5-flash"; "gemini-1.5-pro"].

Definition requestBody (prompt : string) : value :=
  VObj [("contents", VArr [user_turn (VStr prompt)])].

Definition request (w : World) (accessToken : value) (prompt : string)
    (modelName : string) : Request :=
  mkRequest (model_endpoint w modelName) accessToken (requestBody prompt) 1200000.

(** The body of the loop: any resolved call returns its [data]. *)
Definition attempt (w : World) (accessToken : value) (prompt : string)
    (modelName : string) (lastError : option Error) : Trace -> Step * Trace :=
  fun log =>
    match post w (request w accessToken prompt modelName) log with
    | (Normal resp, log') => (Return (data resp), log')
    | (Throw err, log') => (Continue (Some err), log')
    end.

(** [generateWithVertexAI] with the candidate list as a parameter. *)
Definition generateWithVertexAI_with (names : list string) (w : World)
    (prompt : string) : M value :=
  accessToken <-
    catch (getAccessToken w)
      (fun err => throw (new_Error ("Failed to authenticate with Google Cloud: "
                                    ++ message err))) ;;
  for_of (attempt w accessToken prompt) "All Vertex AI models failed" names None.

Definition generateWithVertexAI : World -> string -> M value :=
  generateWithVertexAI_with modelNames.

Definition generate_failed (err : Error) : Reply :=
  mkReply 500 (VObj [("success", VBool false);
                     ("message", VStr "Failed to generate recommendations with AI.");
                     ("error", VStr (if String.eqb (message err) ""
                                     then String_of_Error err
                                     else message err))]).

Definition no_content (aiResp : value) : Reply :=
  mkReply 500 (VObj [("success", VBool false);
                     ("message", VStr "No recommendations content in AI response");
                     ("response", aiResp)]).

(** Steps 3 and 4 of [generateHealthRecommendations], with the candidate
    list as a parameter: generate, extract, and answer 500 when either
    gives nothing. [inr] is the text handed on to step 5 to be stored. *)
Definition generateHealthRecommendations_steps34 (names : list string) (w : World) (prompt : string)
    : M (Reply + value) :=
  fun log =>
    match generateWithVertexAI_with names w prompt log with
    | (Throw err, log') => (Normal (inl (generate_failed err)), log')
    | (Normal aiResp, log') =>
        (recommendations <-! extractAiText aiResp ;;
         if negb (truthy recommendations)
         then Normal (inl (no_content aiResp))
         else Normal (inr recommendations),
         log')
    end.

(** What the Response Extractor makes of a resolved call. *)
Definition text_of (resp : HttpResponse) : value :=
  match extractAiText (data resp) with
  | Normal text => text
  | Throw _ => VNull
  end.

(** A failed candidate as the loop has it: the call was rejected. *)
Definition accept (resp : HttpResponse) : option value := Some (data resp).

(** A failed candidate as the specification has it: the call was rejected,
    or it resolved and the Response Extractor found no text. *)
Definition no_text (c : completion HttpResponse) : bool :=
  match c with
  | Throw _ => true
  | Normal resp => negb (truthy (text_of resp))
  end.

End Recommendation.

(** ** The chat path *)

Module Chat.

Definition getAccessToken (w : World) : M value :=
  fun log =>
    (try_catch
       (if auth w
        then tokenResponse <-! token_reply w log ;; member tokenResponse "token"
        else Throw (TypeError "getClient"))
       (fun err => Throw (new_Error ("Authentication failed: " ++ message err))),
     log ++ [EvGetAccessToken]).

Definition modelNames : list string :=
  ["gemini-2.0-flash-exp"; "gemini-1.5-flash"; "gemini-1.5-pro"].

Definition systemInstruction : value :=
  VObj [("parts",
         VArr [VObj [("text", VStr "You are a helpful healthcare assistant. Provide clear, accurate, and empathetic responses to health-related questions. Keep responses concise and easy to understand. If a question is outside your medical knowledge, suggest consulting a healthcare professional.")]])].

Definition requestBody (conversationHistory : value) : value :=
  VObj [("contents", conversationHistory); ("systemInstruction", systemInstruction)].

Definition request (w : World) (accessToken : value) (conversationHistory : value)
    (modelName : string) : Request :=
  mkRequest (model_endpoint w modelName) accessToken (requestBody conversationHistory)
    1200000.

(** [response.data?.candidates?.[0]?.content?.parts?.[0]?.text || null] *)
Definition aiText (resp : HttpResponse) : value :=
  js_or
    (opt_member
       (opt_index0
          (opt_member
             (opt_member (opt_index0 (opt_member (data resp) "candidates")) "content")
             "parts"))
       "text")
    VNull.

(** The body of the loop: a resolved call returns only when its text is
    truthy; otherwise the next pass starts with [lastError] as it was. *)
Definition attempt (w : World) (accessToken : value) (conversationHistory : value)
    (modelName : string) (lastError : option Error) : Trace -> Step * Trace :=
  fun log =>
    match post w (request w accessToken conversationHistory modelName) log with
    | (Normal resp, log') =>
        if truthy (aiText resp) then (Return (aiText resp), log')
        else (Continue lastError, log')
    | (Throw err, log') => (Continue (Some err), log')
    end.

(** [callGeminiAPI] with the candidate list as a parameter. *)
Definition callGeminiAPI_with (names : list string) (w : World)
    (conversationHistory : value) : M value :=
  accessToken <- getAccessToken w ;;
  for_of (attempt w accessToken conversationHistory) "All Gemini models failed" names None.

Definition callGeminiAPI : World -> value -> M value := callGeminiAPI_with modelNames.

Definition accept (resp : HttpResponse) : option value :=
  if truthy (aiText resp) then Some (aiText resp) else None.

(** A failed candidate: the call was rejected, or it resolved without
    truthy text. *)
Definition no_text (c : completion HttpResponse) : bool :=
  match c with
  | Throw _ => true
  | Normal resp => negb (truthy (aiText resp))
  end.

Definition isArray (v : value) : bool :=
  match v with VArr _ => true | _ => false end.

Definition items_of (v : value) : list value :=
  match v with VArr items => items | _ => [] end.

(** The Conversation Assembler: [geminiHistory] after the [push]. *)
Definition geminiHistory (conversationHistory message : value) : list value :=
  (if truthy conversationHistory && isArray conversationHistory
   then items_of conversationHistory
   else [])
  ++ [user_turn message].

Definition bad_request : Reply :=
  mkReply 400 (VObj [("success", VBool false);
                     ("message", VStr "Session ID and message are required")]).

Definition chat_ok (sessionId message aiResponse : value) (timestamp : string) : Reply :=
  mkReply 200 (VObj [("success", VBool true);
                     ("message", VStr "Chat response generated successfully");
                     ("data", VObj [("sessionId", sessionId);
                                    ("userMessage", message);
                                    ("botResponse", aiResponse);
                                    ("timestamp", VStr timestamp)])]).

Definition chat_failed (error : Error) : Reply :=
  mkReply 500 (VObj [("success", VBool false);
                     ("message", VStr "Failed to get AI response. Please try again.");
                     ("error", VStr (message error))]).

Definition chat_crashed (error : Error) : Reply :=
  mkReply 500 (VObj [("success", VBool false);
                     ("message", VStr "Failed to process chat message");
                     ("error", VStr (message error))]).

(** The [chat] handler on [req.body], with the candidate list as a
    parameter. *)
Definition chat_with (names : list string) (w : World) (req_body : value) : M Reply :=
  catch
    (body <- lift (destructure "sessionId" "req.body" req_body) ;;
     let sessionId := get body "sessionId" in
     let message := get body "message" in
     let conversationHistory := get body "conversationHistory" in
     if negb (truthy sessionId) || negb (truthy message) then ret bad_request
     else
       _ <- lift (interpolate sessionId) ;;
       _ <- lift (interpolate message) ;;
       catch
         (aiResponse <-
            callGeminiAPI_with names w (VArr (geminiHistory conversationHistory message)) ;;
          fun log => (Normal (chat_ok sessionId message aiResponse (clock w log)), log))
         (fun error => ret (chat_failed error)))
    (fun error => ret (chat_crashed error)).

Definition chat : World -> value -> M Reply := chat_with modelNames.

Definition chat_body (sessionId message conversationHistory : value) : value :=
  VObj [("sessionId", sessionId); ("message", message);
        ("conversationHistory", conversationHistory)].

Definition botResponse (r : Reply) : value := get (get (json r) "data") "botResponse".

Definition echoed_sessionId (r : Reply) : value := get (get (json r) "data") "sessionId".


End Chat.

(** ** Scripted worlds *)

Definition ok (v : value) : completion HttpResponse := Normal (mkResponse 200 v).

Definition rejection (st : Z) (msg : string) : Error :=
  mkError "AxiosError" msg
    (Some (mkResponse st (VObj [("error", VObj [("message", VStr msg)])]))).

Definition rejected (st : Z) (msg : string) : completion HttpResponse :=
  Throw (rejection st msg).

(** A world with a working identity provider whose upstream gives the
    [n]-th of [answers] to the [n]-th post, and no answer after that. *)
Definition scripted (answers : list (completion HttpResponse)) : World :=
  mkWorld None None true
    (fun _ => Normal (VObj [("token", VStr "ya29.token")]))
    (fun log _ => nth (List.length (posts_of log)) answers
                    (Throw (new_Error "Network Error")))
    (fun _ => "2025-11-02T10:30:00.000Z").

(** A world whose identity provider refuses. *)
Definition unauthenticated : World :=
  mkWorld None None true
    (fun _ => Throw (new_Error "Could not load the default credentials."))
    (fun _ _ => ok (envelope (VStr "Drink water.")))
    (fun _ => "2025-11-02T10:30:00.000Z").

(** A world whose identity provider hands out a new token on every call
    and whose upstream always answers with text. *)
Definition rotating : World :=
  mkWorld None None true
    (fun log => Normal (VObj [("token",
                               VStr (match token_fetches log with
                                     | 0 => "token-1"
                                     | 1 => "token-2"
                                     | _ => "token-n"
                                     end))]))
    (fun _ _ => ok (envelope (VStr "Drink water.")))
    (fun _ => "2025-11-02T10:30:00.000Z").

(** ** Claims of the specification, as they are stated *)

Module Claim.

(** An error reports an answer when it is the error that answer raised, or
    carries the response that answer resolved with. *)
Definition reports (e : Error) (c : completion HttpResponse) : Prop :=
  match c with
  | Throw e' => e = e'
  | Normal resp => response e = Some resp
  end.

(** Recommendation path: candidates [1..k-1] fail, candidate [k] succeeds
    with text: [k] posts in order and that text. [failed] is the notion of
    a failed candidate. *)
Definition first_success (failed : completion HttpResponse -> bool)
    (names : list string) (w : World) (prompt : string) (log : Trace) (k : nat) : Prop :=
  forall accessToken resp,
    fst (Recommendation.getAccessToken w log) = Normal accessToken ->
    let reqs := map (Recommendation.request w accessToken prompt) names in
    let answers := replies w reqs (log ++ [EvGetAccessToken]) in
    1 <= k <= List.length names ->
    Forall (fun c => failed c = true) (firstn (k - 1) answers) ->
    nth_error answers (k - 1) = Some (Normal resp) ->
    truthy (Recommendation.text_of resp) = true ->
    Recommendation.generateHealthRecommendations_steps34 names w prompt log
    = (Normal (inr (Recommendation.text_of resp)),
       log ++ EvGetAccessToken :: map EvPost (firstn k reqs)).

(** Chat path: every candidate fails: the call throws an error that
    reports the last candidate's failure. *)
Definition last_failure (names : list string) (w : World) (history : value)
    (log : Trace) : Prop :=
  forall accessToken,
    fst (Chat.getAccessToken w log) = Normal accessToken ->
    let answers := replies w (map (Chat.request w accessToken history) names)
                     (log ++ [EvGetAccessToken]) in
    names <> [] ->
    Forall (fun c => Chat.no_text c = true) answers ->
    exists e,
      fst (Chat.callGeminiAPI_with names w history log) = Throw e /\
      reports e (last answers (Throw e)).

(** One pass of a loop body over a candidate that resolves without text:
    the pass goes on to the next candidate with an error for this outcome
    as the last error. *)
Definition absent_recorded (attempt : string -> option Error -> Trace -> Step * Trace)
    (w : World) (mk : string -> Request) (text : HttpResponse -> value)
    (modelName : string) (lastError : option Error) (log : Trace) : Prop :=
  forall resp,
    post_reply w log (mk modelName) = Normal resp ->
    truthy (text resp) = false ->
    exists e,
      attempt modelName lastError log
      = (Continue (Some e), log ++ [EvPost (mk modelName)]) /\
      reports e (Normal resp).

(** The extractor gives back the string of a well-formed envelope. *)
Definition extracts_text (response : value) (s : string) : Prop :=
  envelope_text response = Some (VStr s) ->
  extractAiText response = Normal (VStr s).


End Claim.

(** ** The other handlers *)

(** [startChat] of [chatController.js]. [uuidv4] is what the call of
    [uuidv4()] does; [req_user] is [req.user]. *)
Module Start.

Definition started (sessionId : string) (userId : value) : Reply :=
  mkReply 201 (VObj [("success", VBool true);
                     ("message", VStr "Chat session started successfully");
                     ("data", VObj [("sessionId", VStr sessionId);
                                    ("userId", userId);
                                    ("welcomeMessage",
                                     VStr "Welcome to Healthcare Assistant! How can I help you today?")])]).

Definition start_failed (error : Error) : Reply :=
  mkReply 500 (VObj [("success", VBool false);
                     ("message", VStr "Failed to start chat session");
                     ("error", VStr (message error))]).

Definition startChat (uuidv4 : completion string) (req_user : value) : completion Reply :=
  try_catch
    (sessionId <-! uuidv4 ;;
     let userId := if truthy req_user then get req_user "id" else VNull in
     Normal (started sessionId userId))
    (fun error => Normal (start_failed error)).

(** The [data.sessionId] a client reads from a reply. *)
Definition sessionId_of (r : Reply) : value := get (get (json r) "data") "sessionId".

End Start.

(** The handlers of the recommendation file, over the ORM. The models
    ([Analytics], [Recommendation]) answer like the upstream does: from the
    list of the database calls made so far. *)
Module Handler.

(** One call of the ORM. [included] tells the [findOne] with an [include]
    list from the plain one. The primary key of an instance is a number or
    a string: the log lines that print [recommendation.id] convert
    nothing. *)
Inductive DbEvent : Type :=
| AnalyticsFindByPk (analyticsId : value)
| RecommendationFindOne (analyticsId : value) (included : bool)
| RecommendationUpdate (instance : value) (values : value)
| RecommendationCreate (values : value).

Definition DbTrace : Type := list DbEvent.

Record Database : Type := mkDatabase {
  findByPk_reply : DbTrace -> value -> completion value;
  findOne_reply : DbTrace -> value -> bool -> completion value;
  (** the instance as [update] leaves it *)
  update_reply : DbTrace -> value -> value -> completion value;
  create_reply : DbTrace -> value -> completion value
}.

(** The upstream trace and the database trace. *)
Definition Effects : Type := (Trace * DbTrace)%type.

Definition H (A : Type) : Type := Effects -> completion A * Effects.

Definition retH {A} (a : A) : H A := fun eff => (Normal a, eff).

Definition bindH {A B} (c : H A) (k : A -> H B) : H B :=
  fun eff =>
    match c eff with
    | (Normal a, eff') => k a eff'
    | (Throw e, eff') => (Throw e, eff')
    end.

Definition catchH {A} (c : H A) (h : Error -> H A) : H A :=
  fun eff =>
    match c eff with
    | (Normal a, eff') => (Normal a, eff')
    | (Throw e, eff') => h e eff'
    end.

Definition liftH {A} (c : completion A) : H A := fun eff => (c, eff).

(** Code of the generation client run inside a handler. *)
Definition liftM {A} (c : M A) : H A :=
  fun eff =>
    match c (fst eff) with
    | (r, log') => (r, (log', snd eff))
    end.

Definition findByPk (db : Database) (analyticsId : value) : H value :=
  fun eff => (findByPk_reply db (snd eff) analyticsId,
              (fst eff, snd eff ++ [AnalyticsFindByPk analyticsId])).

Definition findOne (db : Database) (analyticsId : value) (included : bool) : H value :=
  fun eff => (findOne_reply db (snd eff) analyticsId included,
              (fst eff, snd eff ++ [RecommendationFindOne analyticsId included])).

Definition update (db : Database) (instance values : value) : H value :=
  fun eff => (update_reply db (snd eff) instance values,
              (fst eff, snd eff ++ [RecommendationUpdate instance values])).

Definition create (db : Database) (values : value) : H value :=
  fun eff => (create_reply db (snd eff) values,
              (fst eff, snd eff ++ [RecommendationCreate values])).

Definition is_write (ev : DbEvent) : bool :=
  match ev with
  | RecommendationUpdate _ _ | RecommendationCreate _ => true
  | _ => false
  end.

(** The values a write stores. *)
Definition written (ev : DbEvent) : list value :=
  match ev with
  | RecommendationUpdate _ values | RecommendationCreate values => [values]
  | _ => []
  end.

Definition writes_of (dbl : DbTrace) : list value := flat_map written dbl.

Definition failure (st : Z) (msg : string) : Reply :=
  mkReply st (VObj [("success", VBool false); ("message", VStr msg)]).

Definition failure_with (st : Z) (msg : string) (detail : string) : Reply :=
  mkReply st (VObj [("success", VBool false); ("message", VStr msg);
                    ("error", VStr detail)]).

Definition recommendationData (analytics recommendations : value) : value :=
  VObj [("analyticsId", get analytics "id");
        ("patientId", get analytics "patientId");
        ("reportId", get analytics "reportId");
        ("recommendations", recommendations);
        ("status", VStr "generated")].

Definition generated (recommendationId patientName createdAt updatedAt : value)
    (analytics prediction confidence recommendations : value) : Reply :=
  mkReply 200
    (VObj [("success", VBool true);
           ("message", VStr "Health recommendations generated and saved successfully");
           ("data",
            VObj [("recommendationId", recommendationId);
                  ("analyticsId", get analytics "id");
                  ("patientId", get analytics "patientId");
                  ("patientName", patientName);
                  ("diagnosis", VObj [("prediction", prediction);
                                      ("confidence", confidence)]);
                  ("recommendations", recommendations);
                  ("createdAt", createdAt);
                  ("updatedAt", updatedAt)])]).

Definition retrieved (recommendation : value) : Reply :=
  mkReply 200 (VObj [("success", VBool true);
                     ("message", VStr "Recommendation retrieved successfully");
                     ("data", recommendation)]).

Section Handlers.

(** The template literal of the prompt, as a function of [prediction] and
    [confidence]: it formats [confidence * 100] with [toFixed(2)], which is
    floating point and stays outside the model. It converts [prediction],
    and [confidence] when that is truthy; the log line just before it has
    converted both already, so building the prompt does not throw. *)
Variable healthRecommendationPrompt : value -> value -> string.

(** [String(err)] *)
Variable String_of : Error -> string.

Notation "x <-- c ;; k" := (bindH c (fun x => k))
  (at level 61, c at next level, right associativity).

(** Step 5: update the row of this analytics when there is one, create it
    otherwise; the result is the instance the response reads. *)
Definition save (db : Database) (analytics recommendations : value) : H value :=
  recommendation <-- findOne db (get analytics "id") false ;;
  if truthy recommendation
  then update db recommendation (recommendationData analytics recommendations)
  else create db (recommendationData analytics recommendations).

(** Step 6: the log line reads [recommendation.id] first, then the response
    reads [analytics.patient.fullName] and the two dates. *)
Definition respond (analytics prediction confidence recommendations recommendation : value)
    : completion Reply :=
  recommendationId <-! member recommendation "id" ;;
  patientName <-! member (get analytics "patient") "fullName" ;;
  createdAt <-! member recommendation "createdAt" ;;
  updatedAt <-! member recommendation "updatedAt" ;;
  Normal (generated recommendationId patientName createdAt updatedAt
            analytics prediction confidence recommendations).

(** [recommendations.length], for the log line that prints it: the
    length of a string or of an array is a number (only that it is one
    matters here), an object has the [length] it carries, anything else has
    none. *)
Definition length_of (v : value) : value :=
  match v with
  | VStr s => VNum (Z.of_nat (String.length s))
  | VArr items => VNum (Z.of_nat (List.length items))
  | VObj _ => get v "length"
  | _ => VUndefined
  end.

(** The log lines convert to a string what they print: the [analyticsId]
    of the request before the row is read, [prediction] and
    [confidence || 'N/A'] before the prompt is built, and the length of the
    text before it is saved. *)
Definition generateHealthRecommendations (db : Database) (w : World) (req_body : value)
    : H Reply :=
  catchH
    (if negb (auth w)
     then retH (failure 500 "Server configuration error: Google Auth not initialized.")
     else
       body <-- liftH (destructure "analyticsId" "req.body" req_body) ;;
       let analyticsId := get body "analyticsId" in
       if negb (truthy analyticsId)
       then retH (failure 400 "analyticsId is required in request body.")
       else
         _ <-- liftH (interpolate analyticsId) ;;
         analytics <-- findByPk db analyticsId ;;
         if negb (truthy analytics)
         then retH (failure 404 "Analytics not found with the provided ID.")
         else
           if negb (truthy (get analytics "diagnosis"))
              || negb (truthy (get (get analytics "diagnosis") "prediction"))
           then retH (failure 400
                        "No diagnosis found in analytics. Please analyze the report first.")
           else
             let prediction := get (get analytics "diagnosis") "prediction" in
             let confidence := get (get analytics "diagnosis") "confidence" in
             _ <-- liftH (interpolate prediction) ;;
             _ <-- liftH (interpolate (js_or confidence (VStr "N/A"))) ;;
             fun eff =>
               match liftM (Recommendation.generateWithVertexAI w
                              (healthRecommendationPrompt prediction confidence)) eff with
               | (Throw err, eff') =>
                   (Normal (failure_with 500 "Failed to generate recommendations with AI."
                              (if String.eqb (message err) "" then String_of err
                               else message err)), eff')
               | (Normal aiResp, eff') =>
                   (recommendations <-- liftH (extractAiText aiResp) ;;
                    if negb (truthy recommendations)
                    then retH (Recommendation.no_content aiResp)
                    else
                      _ <-- liftH (interpolate (length_of recommendations)) ;;
                      recommendation <-- save db analytics recommendations ;;
                      liftH (respond analytics prediction confidence recommendations
                               recommendation)) eff'
               end)
    (fun error => retH (failure_with 500 "Internal Server Error" (message error))).

(** [getRecommendationByAnalytics] on [req.params]. The router hands the
    route parameters over as strings, so the log line that prints
    [analyticsId] converts nothing. *)
Definition getRecommendationByAnalytics (db : Database) (req_params : value) : H Reply :=
  catchH
    (params <-- liftH (destructure "analyticsId" "req.params" req_params) ;;
     let analyticsId := get params "analyticsId" in
     recommendation <-- findOne db analyticsId true ;;
     if negb (truthy recommendation)
     then retH (failure 404
                  "No recommendation found for this analytics. Please generate recommendations first.")
     else retH (retrieved recommendation))
    (fun error => retH (failure_with 500 "Failed to retrieve recommendation" (message error))).

End Handlers.

(** A database with one analytics row and the recommendation rows of
    [stored]; [update] and [create] answer with the values they were given
    plus an [id]. *)
Definition one_analytics (analytics : value) (stored : value) : Database :=
  mkDatabase
    (fun _ _ => Normal analytics)
    (fun _ _ _ => Normal stored)
    (fun _ _ values => Normal (VObj [("id", VNum 7); ("createdAt", VStr "t0");
                                     ("updatedAt", VStr "t1"); ("values", values)]))
    (fun _ values => Normal (VObj [("id", VNum 8); ("createdAt", VStr "t1");
                                   ("updatedAt", VStr "t1"); ("values", values)])).

Definition analytics_row (patient : value) : value :=
  VObj [("id", VNum 3); ("patientId", VNum 11); ("reportId", VNum 5);
        ("diagnosis", VObj [("prediction", VStr "Anemia"); ("confidence", VNum 1)]);
        ("patient", patient)].

End Handler.

(** * Theorems *)

(** ** Lists and traces *)

Lemma last_cons {A} (x d : A) (l : list A) : last (x :: l) d = last l x.
Proof.
  revert x d. induction l as [|y l IH]; intros x d; [reflexivity|].
  change (last (x :: y :: l) d) with (last (y :: l) d).
  now rewrite !IH.
Qed.

Lemma posts_of_app (l1 l2 : Trace) : posts_of (l1 ++ l2) = posts_of l1 ++ posts_of l2.
Proof. unfold posts_of. apply flat_map_app. Qed.

Lemma posts_of_posts (reqs : list Request) : posts_of (map EvPost reqs) = reqs.
Proof. induction reqs as [|r reqs IH]; simpl; [reflexivity|now rewrite IH]. Qed.

Lemma token_fetches_app (l1 l2 : Trace) :
  token_fetches (l1 ++ l2) = token_fetches l1 + token_fetches l2.
Proof. unfold token_fetches. now rewrite filter_app, length_app. Qed.

Lemma token_fetches_posts (reqs : list Request) : token_fetches (map EvPost reqs) = 0.
Proof. induction reqs as [|r reqs IH]; simpl; [reflexivity|exact IH]. Qed.

Lemma replies_length (w : World) (reqs : list Request) (log : Trace) :
  List.length (replies w reqs log) = List.length reqs.
Proof.
  revert log. induction reqs as [|r reqs IH]; intros log; simpl; [reflexivity|].
  now rewrite IH.
Qed.

(** ** The candidate loop *)

Section ForOf.

Variable w : World.
Variable mk : string -> Request.
Variable accept : HttpResponse -> option value.
Variable attempt : string -> option Error -> Trace -> Step * Trace.
Variable exhausted : string.

Hypothesis attempt_posts :
  forall modelName lastError log,
    attempt modelName lastError log = attempt_of w mk accept modelName lastError log.

(** The first [k - 1] answers are passed over and the [k]-th is accepted:
    the loop returns it after exactly the first [k] posts. *)
Lemma for_of_first_accepted (names : list string) (lastError : option Error)
    (log : Trace) (k : nat) (resp : HttpResponse) (v : value) :
  1 <= k <= List.length names ->
  Forall (fun c => passed_over accept c = true)
         (firstn (k - 1) (replies w (map mk names) log)) ->
  nth_error (replies w (map mk names) log) (k - 1) = Some (Normal resp) ->
  accept resp = Some v ->
  for_of attempt exhausted names lastError log
  = (Normal v, log ++ map EvPost (firstn k (map mk names))).
Proof.
  revert lastError log k.
  induction names as [|modelName rest IH]; intros lastError log k [Hk1 Hk2] Hpre Hk Hv.
  - simpl in Hk2. lia.
  - destruct k as [|[|j]]; [lia| |].
    + simpl in Hk. injection Hk as Hk.
      simpl. rewrite attempt_posts. unfold attempt_of. rewrite Hk, Hv. reflexivity.
    + replace (S (S j) - 1) with (S j) in Hpre, Hk by lia.
      cbn [map replies firstn nth_error] in Hpre, Hk.
      inversion Hpre as [|c cs Hc Hcs]; subst.
      cbn [for_of]. rewrite attempt_posts. unfold attempt_of.
      assert (Hrest :
        forall le, for_of attempt exhausted rest le (log ++ [EvPost (mk modelName)])
        = (Normal v, log ++ map EvPost (firstn (S (S j)) (map mk (modelName :: rest))))).
      { intros le. rewrite (IH le _ (S j)).
        - cbn [map firstn]. rewrite <- app_assoc. reflexivity.
        - simpl in Hk2. lia.
        - replace (S j - 1) with j by lia. exact Hcs.
        - replace (S j - 1) with j by lia. exact Hk.
        - exact Hv. }
      destruct (post_reply w log (mk modelName)) as [r|e].
      * simpl in Hc. destruct (accept r); [discriminate|]. apply Hrest.
      * apply Hrest.
Qed.

(** Every answer is passed over: the loop posts to every candidate and
    throws the last error raised, or the generic one when none was. *)
Lemma for_of_exhausted (names : list string) (lastError : option Error) (log : Trace) :
  Forall (fun c => passed_over accept c = true) (replies w (map mk names) log) ->
  for_of attempt exhausted names lastError log
  = (Throw (or_new_Error (last_raised (replies w (map mk names) log) lastError) exhausted),
     log ++ map EvPost (map mk names)).
Proof.
  revert lastError log.
  induction names as [|modelName rest IH]; intros lastError log Hall.
  - simpl. rewrite app_nil_r. reflexivity.
  - simpl in Hall. inversion Hall as [|c cs Hc Hcs]; subst.
    cbn [for_of]. rewrite attempt_posts. unfold attempt_of.
    cbn [map replies]. unfold last_raised.
    destruct (post_reply w log (mk modelName)) as [r|e].
    + simpl in Hc. destruct (accept r); [discriminate|].
      rewrite (IH _ _ Hcs). simpl. rewrite <- app_assoc. reflexivity.
    + rewrite (IH _ _ Hcs). unfold last_raised. cbn [raised flat_map app map].
      change (flat_map (fun c => match c with Throw e0 => [e0] | Normal _ => [] end)
                (replies w (map mk rest) (log ++ [EvPost (mk modelName)])))
        with (raised (replies w (map mk rest) (log ++ [EvPost (mk modelName)]))).
      rewrite last_cons, <- app_assoc. reflexivity.
Qed.

(** Whatever the answers, the loop only posts, to a prefix of the
    candidates, in their order. *)
Lemma for_of_trace (names : list string) (lastError : option Error) (log : Trace) :
  exists n,
    n <= List.length names /\
    snd (for_of attempt exhausted names lastError log)
    = log ++ map EvPost (firstn n (map mk names)).
Proof.
  revert lastError log.
  induction names as [|modelName rest IH]; intros lastError log.
  - exists 0. simpl. rewrite app_nil_r. split; [lia|reflexivity].
  - cbn [for_of]. rewrite attempt_posts. unfold attempt_of.
    assert (Hgo : forall le,
      exists n, n <= List.length (modelName :: rest) /\
        snd (for_of attempt exhausted rest le (log ++ [EvPost (mk modelName)]))
        = log ++ map EvPost (firstn n (map mk (modelName :: rest)))).
    { intros le. destruct (IH le (log ++ [EvPost (mk modelName)])) as (n & Hn & Hs).
      exists (S n). split; [simpl; lia|].
      rewrite Hs. simpl. rewrite <- app_assoc. reflexivity. }
    assert (Hstop : exists n, n <= List.length (modelName :: rest) /\
        log ++ [EvPost (mk modelName)]
        = log ++ map EvPost (firstn n (map mk (modelName :: rest)))).
    { exists 1. split; [simpl; lia|reflexivity]. }
    destruct (post_reply w log (mk modelName)) as [r|e].
    + destruct (accept r); [exact Hstop|apply Hgo].
    + apply Hgo.
Qed.

End ForOf.

(** ** The Response Extractor *)

Lemma extractAiText_envelope_text (response t : value) :
  envelope_text response = Some t ->
  extractAiText response = Normal (js_or t VNull).
Proof.
  destruct response as [ | | | | | |top]; simpl; try discriminate.
  unfold extractAiText, extractAiText_try, opt_member; simpl.
  destruct (assoc "candidates" top) as [[ | | | | |cs|]|]; try discriminate.
  destruct cs as [|[ | | | | | |c0] cs]; try discriminate.
  simpl.
  destruct (assoc "content" c0) as [[ | | | | | |content]|]; try discriminate.
  simpl.
  destruct (assoc "parts" content) as [[ | | | | |ps|]|]; try discriminate.
  destruct ps as [|[ | | | | | |p0] ps]; try discriminate.
  simpl. intros ->. reflexivity.
Qed.

Lemma extractAiText_malformed (response : value) :
  envelope_text response = None ->
  extractAiText response = Normal VNull.
Proof.
  unfold extractAiText, extractAiText_try, opt_member.
  destruct response as [ | | | | | |top]; simpl; try reflexivity.
  destruct (assoc "candidates" top) as [[ | | | | |cs|]|]; simpl; try reflexivity.
  destruct cs as [|c cs]; simpl; try reflexivity.
  destruct c as [ | | | | | |c0]; simpl; try reflexivity.
  destruct (assoc "content" c0) as [[ | | | | | |content]|]; simpl; try reflexivity.
  destruct (assoc "parts" content) as [[ | | | | |ps|]|]; simpl; try reflexivity.
  destruct ps as [|p ps]; simpl; try reflexivity.
  destruct p as [ | | | | | |p0]; simpl; try reflexivity.
  intros ->. reflexivity.
Qed.

Lemma extractAiText_try_normal (response : value) :
  exists v, extractAiText_try response = Normal v.
Proof.
  unfold extractAiText_try.
  destruct (opt_member response "candidates") as [ | | | | |cs|]; simpl; eauto.
  destruct cs as [|c0 cs]; simpl; eauto.
  destruct (opt_member (opt_member c0 "content") "parts") as [ | | | | |ps|]; simpl; eauto.
  destruct ps as [|p0 ps]; simpl; eauto.
Qed.

Lemma extractAiText_normal (response : value) :
  exists v, extractAiText response = Normal v.
Proof.
  destruct (envelope_text response) as [t|] eqn:E.
  - rewrite (extractAiText_envelope_text _ _ E). eauto.
  - rewrite (extractAiText_malformed _ E). eauto.
Qed.

(** C5, amended. For every well-formed response envelope the Response
    Extractor returns exactly the string at
    [candidates[0].content.parts[0].text] when that string is not empty;
    when it is empty the extractor returns the absent value [null], so an
    empty text is not told apart from an absent one. *)
Theorem extractAiText_well_formed (response : value) (s : string) :
  envelope_text response = Some (VStr s) ->
  extractAiText response = Normal (if String.eqb s "" then VNull else VStr s).
Proof.
  intros H. rewrite (extractAiText_envelope_text _ _ H).
  unfold js_or. simpl. destruct (String.eqb s ""); reflexivity.
Qed.

Lemma extractAiText_well_formed_witness :
  extractAiText (envelope (VStr "Drink water.")) = Normal (VStr "Drink water.").
Proof.
  exact (extractAiText_well_formed (envelope (VStr "Drink water.")) "Drink water." eq_refl).
Defined.

(** C5 as stated fails on the empty string: the envelope is well formed,
    its text is the empty string, and the extractor answers [null]. *)
Lemma extractAiText_empty_text_counterexample :
  ~ Claim.extracts_text (envelope (VStr "")) "".
Proof.
  unfold Claim.extracts_text. intros H.
  specialize (H eq_refl). vm_compute in H. discriminate H.
Qed.

(** C6. For every input value the Response Extractor ends normally (its
    [try] block never throws, and neither does the function), and for every
    value with a missing or malformed layer it returns the absent value
    [null]. *)
Theorem extractAiText_absent_never_raises (response : value) :
  (exists v, extractAiText_try response = Normal v) /\
  (exists v, extractAiText response = Normal v) /\
  (envelope_text response = None -> extractAiText response = Normal VNull).
Proof.
  split; [apply extractAiText_try_normal|].
  split; [apply extractAiText_normal|apply extractAiText_malformed].
Qed.

Lemma extractAiText_absent_never_raises_witness :
  extractAiText (VObj [("candidates", VArr [])]) = Normal VNull /\
  extractAiText (VObj [("candidates", VStr "oops")]) = Normal VNull /\
  extractAiText (VNum 7) = Normal VNull /\
  extractAiText VUndefined = Normal VNull.
Proof.
  refine (conj _ (conj _ (conj _ _))).
  - exact (proj2 (proj2 (extractAiText_absent_never_raises
                           (VObj [("candidates", VArr [])]))) eq_refl).
  - exact (proj2 (proj2 (extractAiText_absent_never_raises
                           (VObj [("candidates", VStr "oops")]))) eq_refl).
  - exact (proj2 (proj2 (extractAiText_absent_never_raises (VNum 7))) eq_refl).
  - exact (proj2 (proj2 (extractAiText_absent_never_raises VUndefined)) eq_refl).
Defined.

Example extractAiText_missing_content :
  extractAiText (VObj [("candidates", VArr [VObj [("finishReason", VStr "SAFETY")]])])
  = Normal VNull.
Proof. reflexivity. Qed.

Example extractAiText_parts_not_array :
  extractAiText
    (VObj [("candidates",
            VArr [VObj [("content", VObj [("parts", VObj [("text", VStr "hi")])])]])])
  = Normal VNull.
Proof. reflexivity. Qed.

Example extractAiText_missing_text :
  extractAiText
    (VObj [("candidates",
            VArr [VObj [("content", VObj [("parts", VArr [VObj [("inlineData", VNull)]])])]])])
  = Normal VNull.
Proof. reflexivity. Qed.

Example extractAiText_null_candidate :
  extractAiText (VObj [("candidates", VArr [VNull])]) = Normal VNull.
Proof. reflexivity. Qed.

(** ** The two paths as instances of the candidate loop *)

Lemma recommendation_attempt_posts (w : World) (accessToken : value) (prompt : string)
    (modelName : string) (lastError : option Error) (log : Trace) :
  Recommendation.attempt w accessToken prompt modelName lastError log
  = attempt_of w (Recommendation.request w accessToken prompt) Recommendation.accept
      modelName lastError log.
Proof.
  unfold Recommendation.attempt, attempt_of, post, Recommendation.accept.
  destruct (post_reply w log _); reflexivity.
Qed.

Lemma chat_attempt_posts (w : World) (accessToken history : value)
    (modelName : string) (lastError : option Error) (log : Trace) :
  Chat.attempt w accessToken history modelName lastError log
  = attempt_of w (Chat.request w accessToken history) Chat.accept
      modelName lastError log.
Proof.
  unfold Chat.attempt, attempt_of, post, Chat.accept.
  destruct (post_reply w log _) as [resp|e]; [|reflexivity].
  destruct (truthy (Chat.aiText resp)); reflexivity.
Qed.

Lemma recommendation_passed_over (c : completion HttpResponse) :
  passed_over Recommendation.accept c = is_raise c.
Proof. destruct c; reflexivity. Qed.

Lemma chat_passed_over (c : completion HttpResponse) :
  passed_over Chat.accept c = Chat.no_text c.
Proof.
  destruct c as [resp|e]; [|reflexivity].
  unfold Chat.accept. simpl. destruct (truthy (Chat.aiText resp)); reflexivity.
Qed.

Lemma Forall_passed_over (accept : HttpResponse -> option value)
    (failed : completion HttpResponse -> bool) (answers : list (completion HttpResponse)) :
  (forall c, passed_over accept c = failed c) ->
  Forall (fun c => failed c = true) answers ->
  Forall (fun c => passed_over accept c = true) answers.
Proof.
  intros Heq. apply Forall_impl. intros c Hc. now rewrite Heq.
Qed.

Lemma getAccessToken_same (w : World) (log : Trace) :
  Chat.getAccessToken w log = Recommendation.getAccessToken w log.
Proof. reflexivity. Qed.

Lemma getAccessToken_pair (w : World) (log : Trace) :
  Recommendation.getAccessToken w log
  = (fst (Recommendation.getAccessToken w log), log ++ [EvGetAccessToken]).
Proof. reflexivity. Qed.

(** A refused token is an authentication error wrapping its cause. *)
Lemma getAccessToken_error (w : World) (log : Trace) (err : Error) :
  fst (Recommendation.getAccessToken w log) = Throw err ->
  exists cause, err = new_Error ("Authentication failed: " ++ cause).
Proof.
  unfold Recommendation.getAccessToken, try_catch. simpl.
  destruct (auth w).
  - destruct (token_reply w log) as [tokenResponse|e]; simpl.
    + unfold member. destruct (nullish tokenResponse); [|discriminate].
      intros [= <-]. eauto.
    + intros [= <-]. eauto.
  - intros [= <-]. eauto.
Qed.

Lemma generateWithVertexAI_token (names : list string) (w : World) (prompt : string)
    (log : Trace) (accessToken : value) :
  fst (Recommendation.getAccessToken w log) = Normal accessToken ->
  Recommendation.generateWithVertexAI_with names w prompt log
  = for_of (Recommendation.attempt w accessToken prompt) "All Vertex AI models failed"
      names None (log ++ [EvGetAccessToken]).
Proof.
  intros H. unfold Recommendation.generateWithVertexAI_with, bind, catch.
  rewrite getAccessToken_pair, H. reflexivity.
Qed.

Lemma generateWithVertexAI_no_token (names : list string) (w : World) (prompt : string)
    (log : Trace) (err : Error) :
  fst (Recommendation.getAccessToken w log) = Throw err ->
  Recommendation.generateWithVertexAI_with names w prompt log
  = (Throw (new_Error ("Failed to authenticate with Google Cloud: " ++ message err)),
     log ++ [EvGetAccessToken]).
Proof.
  intros H. unfold Recommendation.generateWithVertexAI_with, bind, catch.
  rewrite getAccessToken_pair, H. reflexivity.
Qed.

Lemma callGeminiAPI_token (names : list string) (w : World) (history : value)
    (log : Trace) (accessToken : value) :
  fst (Chat.getAccessToken w log) = Normal accessToken ->
  Chat.callGeminiAPI_with names w history log
  = for_of (Chat.attempt w accessToken history) "All Gemini models failed"
      names None (log ++ [EvGetAccessToken]).
Proof.
  intros H. unfold Chat.callGeminiAPI_with, bind.
  rewrite getAccessToken_same, getAccessToken_pair.
  rewrite getAccessToken_same in H. rewrite H. reflexivity.
Qed.

Lemma callGeminiAPI_no_token (names : list string) (w : World) (history : value)
    (log : Trace) (err : Error) :
  fst (Chat.getAccessToken w log) = Throw err ->
  Chat.callGeminiAPI_with names w history log = (Throw err, log ++ [EvGetAccessToken]).
Proof.
  intros H. unfold Chat.callGeminiAPI_with, bind.
  rewrite getAccessToken_same, getAccessToken_pair.
  rewrite getAccessToken_same in H. rewrite H. reflexivity.
Qed.

Lemma cons_app_trace (log : Trace) (ev : Event) (rest : Trace) :
  (log ++ [ev]) ++ rest = log ++ ev :: rest.
Proof. now rewrite <- app_assoc. Qed.

Lemma last_raised_snoc (init : list (completion HttpResponse)) (e : Error)
    (lastError : option Error) :
  last_raised (init ++ [Throw e]) lastError = Some e.
Proof.
  unfold last_raised, raised. rewrite flat_map_app, map_app. simpl. apply last_last.
Qed.

(** ** The Generation Invoker: first success *)

Lemma callGeminiAPI_first_success (names : list string) (w : World) (history : value)
    (log : Trace) (k : nat) (accessToken : value) (resp : HttpResponse) :
  fst (Chat.getAccessToken w log) = Normal accessToken ->
  1 <= k <= List.length names ->
  Forall (fun c => Chat.no_text c = true)
    (firstn (k - 1)
       (replies w (map (Chat.request w accessToken history) names)
          (log ++ [EvGetAccessToken]))) ->
  nth_error
    (replies w (map (Chat.request w accessToken history) names)
       (log ++ [EvGetAccessToken])) (k - 1) = Some (Normal resp) ->
  truthy (Chat.aiText resp) = true ->
  Chat.callGeminiAPI_with names w history log
  = (Normal (Chat.aiText resp),
     log ++ EvGetAccessToken
         :: map EvPost (firstn k (map (Chat.request w accessToken history) names))).
Proof.
  intros Htok Hk Hpre Hnth Htext.
  rewrite (callGeminiAPI_token _ _ _ _ _ Htok).
  rewrite (for_of_first_accepted w (Chat.request w accessToken history) Chat.accept
             _ _ (chat_attempt_posts w accessToken history)
             names None _ k resp (Chat.aiText resp) Hk).
  - now rewrite cons_app_trace.
  - apply (Forall_passed_over _ _ _ chat_passed_over Hpre).
  - exact Hnth.
  - unfold Chat.accept. now rewrite Htext.
Qed.

Lemma generateWithVertexAI_first_success (names : list string) (w : World)
    (prompt : string) (log : Trace) (k : nat) (accessToken : value)
    (resp : HttpResponse) :
  fst (Recommendation.getAccessToken w log) = Normal accessToken ->
  1 <= k <= List.length names ->
  Forall (fun c => is_raise c = true)
    (firstn (k - 1)
       (replies w (map (Recommendation.request w accessToken prompt) names)
          (log ++ [EvGetAccessToken]))) ->
  nth_error
    (replies w (map (Recommendation.request w accessToken prompt) names)
       (log ++ [EvGetAccessToken])) (k - 1) = Some (Normal resp) ->
  Recommendation.generateWithVertexAI_with names w prompt log
  = (Normal (data resp),
     log ++ EvGetAccessToken
         :: map EvPost
              (firstn k (map (Recommendation.request w accessToken prompt) names))).
Proof.
  intros Htok Hk Hpre Hnth.
  rewrite (generateWithVertexAI_token _ _ _ _ _ Htok).
  rewrite (for_of_first_accepted w (Recommendation.request w accessToken prompt)
             Recommendation.accept
             _ _ (recommendation_attempt_posts w accessToken prompt)
             names None _ k resp (data resp) Hk).
  - now rewrite cons_app_trace.
  - apply (Forall_passed_over _ _ _ recommendation_passed_over Hpre).
  - exact Hnth.
  - reflexivity.
Qed.

Lemma text_of_extract (resp : HttpResponse) :
  extractAiText (data resp) = Normal (Recommendation.text_of resp).
Proof.
  unfold Recommendation.text_of.
  destruct (extractAiText_normal (data resp)) as [v Hv].
  now rewrite Hv.
Qed.

Lemma recommendations_of_response (names : list string) (w : World) (prompt : string)
    (log log' : Trace) (aiResp : value) :
  Recommendation.generateWithVertexAI_with names w prompt log = (Normal aiResp, log') ->
  forall text,
    extractAiText aiResp = Normal text ->
    Recommendation.generateHealthRecommendations_steps34 names w prompt log
    = (Normal (if truthy text then inr text
               else inl (Recommendation.no_content aiResp)), log').
Proof.
  intros Hrun text Htext. unfold Recommendation.generateHealthRecommendations_steps34.
  rewrite Hrun, Htext. simpl. destruct (truthy text); reflexivity.
Qed.

Lemma callGeminiAPI_prefix (names : list string) (w : World) (history : value)
    (log : Trace) (accessToken : value) :
  fst (Chat.getAccessToken w log) = Normal accessToken ->
  exists n,
    n <= List.length names /\
    snd (Chat.callGeminiAPI_with names w history log)
    = log ++ EvGetAccessToken
          :: map EvPost (firstn n (map (Chat.request w accessToken history) names)).
Proof.
  intros Htok. rewrite (callGeminiAPI_token _ _ _ _ _ Htok).
  destruct (for_of_trace w (Chat.request w accessToken history) Chat.accept
              _ "All Gemini models failed" (chat_attempt_posts w accessToken history)
              names None (log ++ [EvGetAccessToken])) as (n & Hn & Hs).
  exists n. split; [exact Hn|]. rewrite Hs. apply cons_app_trace.
Qed.

Lemma generateWithVertexAI_prefix (names : list string) (w : World) (prompt : string)
    (log : Trace) (accessToken : value) :
  fst (Recommendation.getAccessToken w log) = Normal accessToken ->
  exists n,
    n <= List.length names /\
    snd (Recommendation.generateWithVertexAI_with names w prompt log)
    = log ++ EvGetAccessToken
          :: map EvPost
               (firstn n (map (Recommendation.request w accessToken prompt) names)).
Proof.
  intros Htok. rewrite (generateWithVertexAI_token _ _ _ _ _ Htok).
  destruct (for_of_trace w (Recommendation.request w accessToken prompt)
              Recommendation.accept
              _ "All Vertex AI models failed"
              (recommendation_attempt_posts w accessToken prompt)
              names None (log ++ [EvGetAccessToken])) as (n & Hn & Hs).
  exists n. split; [exact Hn|]. rewrite Hs. apply cons_app_trace.
Qed.

(** C1, amended. For every candidate list and every [k] with
    [1 <= k <= length], once the token is there: if each of candidates
    [1..k-1] fails and candidate [k] answers 2xx with usable text, exactly
    [k] outbound calls are issued, one per candidate in list order, and the
    result is candidate [k]'s extracted text; no later candidate is tried
    and none is tried twice. On the chat path a candidate fails when its
    call is rejected or resolves without truthy text; on the recommendation
    path a candidate fails only when its call is rejected (non-2xx status
    or transport error), because there the first resolved call ends the
    loop whatever it carries. Whatever the answers are, the calls of one
    invocation go to an initial stretch of the candidate list, one call per
    candidate, in list order. *)
Theorem first_success_after_failures (names : list string) (w : World) (log : Trace)
    (k : nat) :
  1 <= k <= List.length names ->
  (forall (history accessToken : value) (resp : HttpResponse),
      fst (Chat.getAccessToken w log) = Normal accessToken ->
      let reqs := map (Chat.request w accessToken history) names in
      let answers := replies w reqs (log ++ [EvGetAccessToken]) in
      Forall (fun c => Chat.no_text c = true) (firstn (k - 1) answers) ->
      nth_error answers (k - 1) = Some (Normal resp) ->
      truthy (Chat.aiText resp) = true ->
      Chat.callGeminiAPI_with names w history log
      = (Normal (Chat.aiText resp),
         log ++ EvGetAccessToken :: map EvPost (firstn k reqs))) /\
  (forall prompt : string, Claim.first_success is_raise names w prompt log k) /\
  (forall (history accessToken : value),
      fst (Chat.getAccessToken w log) = Normal accessToken ->
      exists n,
        n <= List.length names /\
        snd (Chat.callGeminiAPI_with names w history log)
        = log ++ EvGetAccessToken
              :: map EvPost (firstn n (map (Chat.request w accessToken history) names))) /\
  (forall (prompt : string) (accessToken : value),
      fst (Recommendation.getAccessToken w log) = Normal accessToken ->
      exists n,
        n <= List.length names /\
        snd (Recommendation.generateWithVertexAI_with names w prompt log)
        = log ++ EvGetAccessToken
              :: map EvPost
                   (firstn n (map (Recommendation.request w accessToken prompt) names))).
Proof.
  intros Hk. split; [|split; [|split]].
  - intros history accessToken resp Htok reqs answers Hpre Hnth Htext.
    now apply callGeminiAPI_first_success.
  - intros prompt accessToken resp Htok reqs answers _ Hpre Hnth Htext.
    pose proof (generateWithVertexAI_first_success names w prompt log k accessToken
                  resp Htok Hk Hpre Hnth) as Hrun.
    rewrite (recommendations_of_response _ _ _ _ _ _ Hrun _ (text_of_extract resp)).
    now rewrite Htext.
  - intros history accessToken. apply callGeminiAPI_prefix.
  - intros prompt accessToken. apply generateWithVertexAI_prefix.
Qed.

(** Candidates ["A"; "B"]: A is rejected with 429, B answers 200 with the
    text "Drink water.": two calls, that text, on both paths. *)
Lemma first_success_after_failures_witness :
  let w := scripted [rejected 429 "Resource exhausted";
                     ok (envelope (VStr "Drink water."))] in
  let tok := VStr "ya29.token" in
  let history := VArr [user_turn (VStr "I feel dizzy")] in
  Chat.callGeminiAPI_with ["A"; "B"] w history []
  = (Normal (VStr "Drink water."),
     [EvGetAccessToken; EvPost (Chat.request w tok history "A");
      EvPost (Chat.request w tok history "B")]) /\
  Recommendation.generateHealthRecommendations_steps34 ["A"; "B"] w "prompt" []
  = (Normal (inr (VStr "Drink water.")),
     [EvGetAccessToken; EvPost (Recommendation.request w tok "prompt" "A");
      EvPost (Recommendation.request w tok "prompt" "B")]).
Proof.
  intros w tok history.
  assert (Hk : 1 <= 2 <= List.length ["A"; "B"]) by (simpl; lia).
  destruct (first_success_after_failures ["A"; "B"] w [] 2 Hk) as (Hchat & Hrec & _).
  split.
  - refine (Hchat history tok (mkResponse 200 (envelope (VStr "Drink water.")))
              eq_refl _ eq_refl eq_refl).
    repeat constructor.
  - refine (Hrec "prompt" tok (mkResponse 200 (envelope (VStr "Drink water.")))
              eq_refl Hk _ eq_refl eq_refl).
    repeat constructor.
Defined.

(** C1 as stated fails on the recommendation path. Candidates ["A"; "B"]:
    A answers 200 with an empty [candidates] array (a failure for the
    specification), B would answer 200 with text. The claim promises two
    calls and B's text; the loop returns A's body after one call and the
    handler answers 500. *)
Lemma first_success_counterexample :
  ~ Claim.first_success Recommendation.no_text ["A"; "B"]
      (scripted [ok (VObj [("candidates", VArr [])]);
                 ok (envelope (VStr "Drink water."))])
      "prompt" [] 2.
Proof.
  intros H.
  specialize (H (VStr "ya29.token") (mkResponse 200 (envelope (VStr "Drink water.")))
                eq_refl).
  simpl in H.
  assert (Hk : 1 <= 2 <= 2) by lia.
  specialize (H Hk).
  assert (Hpre : Forall (fun c => Recommendation.no_text c = true)
                   [ok (VObj [("candidates", VArr [])])]) by (repeat constructor).
  specialize (H Hpre eq_refl eq_refl).
  vm_compute in H. discriminate H.
Qed.

Example recommendation_stops_at_first_2xx :
  let w := scripted [ok (VObj [("candidates", VArr [])]);
                     ok (envelope (VStr "Drink water."))] in
  Recommendation.generateHealthRecommendations_steps34 ["A"; "B"] w "prompt" []
  = (Normal (inl (Recommendation.no_content (VObj [("candidates", VArr [])]))),
     [EvGetAccessToken;
      EvPost (Recommendation.request w (VStr "ya29.token") "prompt" "A")]).
Proof. reflexivity. Qed.

(** ** The Generation Invoker: credential failure *)

(** C2. On both paths, when token acquisition fails the call aborts with an
    authentication error (the provider's "Authentication failed: ..."
    error, which the recommendation path wraps once more) and the trace
    grows by the credential fetch alone: no outbound HTTP call is made. *)
Theorem credential_failure_no_posts (names : list string) (w : World) (log : Trace)
    (err : Error) (prompt : string) (history : value) :
  fst (Recommendation.getAccessToken w log) = Throw err ->
  fst (Chat.getAccessToken w log) = Throw err ->
  (exists cause, err = new_Error ("Authentication failed: " ++ cause)) /\
  Recommendation.generateWithVertexAI_with names w prompt log
  = (Throw (new_Error ("Failed to authenticate with Google Cloud: " ++ message err)),
     log ++ [EvGetAccessToken]) /\
  Chat.callGeminiAPI_with names w history log = (Throw err, log ++ [EvGetAccessToken]) /\
  posts_of (snd (Recommendation.generateWithVertexAI_with names w prompt log))
  = posts_of log /\
  posts_of (snd (Chat.callGeminiAPI_with names w history log)) = posts_of log.
Proof.
  intros Hrec Hchat.
  rewrite (generateWithVertexAI_no_token _ _ _ _ _ Hrec).
  rewrite (callGeminiAPI_no_token _ _ _ _ _ Hchat).
  repeat split.
  - exact (getAccessToken_error _ _ _ Hrec).
  - simpl. rewrite posts_of_app. simpl. apply app_nil_r.
  - simpl. rewrite posts_of_app. simpl. apply app_nil_r.
Qed.

Lemma credential_failure_no_posts_witness :
  let err := new_Error "Authentication failed: Could not load the default credentials." in
  Recommendation.generateWithVertexAI unauthenticated "prompt" []
  = (Throw (new_Error ("Failed to authenticate with Google Cloud: " ++ message err)),
     [EvGetAccessToken]) /\
  Chat.callGeminiAPI unauthenticated (VArr [user_turn (VStr "hello")]) []
  = (Throw err, [EvGetAccessToken]).
Proof.
  intros err.
  destruct (credential_failure_no_posts Recommendation.modelNames unauthenticated []
              err "prompt" (VArr [user_turn (VStr "hello")]) eq_refl eq_refl)
    as (_ & Hrec & _).
  destruct (credential_failure_no_posts Chat.modelNames unauthenticated []
              err "prompt" (VArr [user_turn (VStr "hello")]) eq_refl eq_refl)
    as (_ & _ & Hchat & _).
  split; [exact Hrec|exact Hchat].
Defined.

(** ** The Generation Invoker: every candidate fails *)

Lemma exhausted_last_raise (answers : list (completion HttpResponse)) :
  answers <> [] ->
  Forall (fun c => is_raise c = true) answers ->
  exists init e, answers = init ++ [Throw e].
Proof.
  intros Hne Hall.
  destruct (exists_last Hne) as (init & c & ->).
  apply Forall_app in Hall. destruct Hall as [_ Hc].
  inversion Hc as [|c' cs Hr _]; subst.
  destruct c as [resp|e]; [discriminate|]. eauto.
Qed.

(** C3, amended. When every candidate fails, the Generation Invoker posts
    to every candidate and throws the error of the last candidate whose
    call was rejected; errors raised earlier are not returned. On the
    recommendation path, where a candidate fails by being rejected, that is
    the last candidate's error. On the chat path a candidate that resolved
    without usable text does not replace the remembered error: the error
    thrown is the last candidate's when its call was rejected, and the
    generic "All Gemini models failed" when no call was rejected. *)
Theorem exhausted_throws_last_raised (names : list string) (w : World) (log : Trace)
    (accessToken : value) :
  fst (Recommendation.getAccessToken w log) = Normal accessToken ->
  (forall history : value,
      let reqs := map (Chat.request w accessToken history) names in
      let answers := replies w reqs (log ++ [EvGetAccessToken]) in
      Forall (fun c => Chat.no_text c = true) answers ->
      Chat.callGeminiAPI_with names w history log
      = (Throw (or_new_Error (last_raised answers None) "All Gemini models failed"),
         log ++ EvGetAccessToken :: map EvPost reqs) /\
      (forall init e, answers = init ++ [Throw e] ->
         fst (Chat.callGeminiAPI_with names w history log) = Throw e) /\
      (raised answers = [] ->
         fst (Chat.callGeminiAPI_with names w history log)
         = Throw (new_Error "All Gemini models failed"))) /\
  (forall prompt : string,
      let reqs := map (Recommendation.request w accessToken prompt) names in
      let answers := replies w reqs (log ++ [EvGetAccessToken]) in
      Forall (fun c => is_raise c = true) answers ->
      Recommendation.generateWithVertexAI_with names w prompt log
      = (Throw (or_new_Error (last_raised answers None) "All Vertex AI models failed"),
         log ++ EvGetAccessToken :: map EvPost reqs) /\
      (names <> [] ->
       exists init e, answers = init ++ [Throw e] /\
         fst (Recommendation.generateWithVertexAI_with names w prompt log) = Throw e)).
Proof.
  intros Htok. split.
  - intros history reqs answers Hall.
    assert (Hrun : Chat.callGeminiAPI_with names w history log
      = (Throw (or_new_Error (last_raised answers None) "All Gemini models failed"),
         log ++ EvGetAccessToken :: map EvPost reqs)).
    { rewrite (callGeminiAPI_token _ _ _ _ _ Htok).
      rewrite (for_of_exhausted w (Chat.request w accessToken history) Chat.accept
                 _ _ (chat_attempt_posts w accessToken history) names None _).
      - now rewrite cons_app_trace.
      - apply (Forall_passed_over _ _ _ chat_passed_over Hall). }
    split; [exact Hrun|]. rewrite Hrun. simpl. split.
    + intros init e ->. now rewrite last_raised_snoc.
    + intros Hnone. unfold last_raised. now rewrite Hnone.
  - intros prompt reqs answers Hall.
    assert (Hrun : Recommendation.generateWithVertexAI_with names w prompt log
      = (Throw (or_new_Error (last_raised answers None) "All Vertex AI models failed"),
         log ++ EvGetAccessToken :: map EvPost reqs)).
    { rewrite (generateWithVertexAI_token _ _ _ _ _ Htok).
      rewrite (for_of_exhausted w (Recommendation.request w accessToken prompt)
                 Recommendation.accept
                 _ _ (recommendation_attempt_posts w accessToken prompt) names None _).
      - now rewrite cons_app_trace.
      - apply (Forall_passed_over _ _ _ recommendation_passed_over Hall). }
    split; [exact Hrun|]. intros Hne.
    assert (Hans : answers <> []).
    { intros E. apply Hne. apply length_zero_iff_nil.
      pose proof (replies_length w reqs (log ++ [EvGetAccessToken])) as Hl.
      fold answers in Hl. rewrite E in Hl. unfold reqs in Hl.
      rewrite length_map in Hl. simpl in Hl. lia. }
    destruct (exhausted_last_raise answers Hans Hall) as (init & e & E).
    exists init, e. split; [exact E|].
    rewrite Hrun. simpl. now rewrite E, last_raised_snoc.
Qed.

(** Candidates ["A"; "B"]: A is rejected with 429, B with 503: the error
    thrown is B's, on both paths. *)
Lemma exhausted_throws_last_raised_witness :
  let w := scripted [rejected 429 "Resource exhausted"; rejected 503 "Unavailable"] in
  let history := VArr [user_turn (VStr "I feel dizzy")] in
  fst (Chat.callGeminiAPI_with ["A"; "B"] w history [])
  = Throw (rejection 503 "Unavailable") /\
  fst (Recommendation.generateWithVertexAI_with ["A"; "B"] w "prompt" [])
  = Throw (rejection 503 "Unavailable").
Proof.
  intros w history.
  destruct (exhausted_throws_last_raised ["A"; "B"] w [] (VStr "ya29.token") eq_refl)
    as [Hchat Hrec].
  split.
  - assert (Hall : Forall (fun c => Chat.no_text c = true)
                     [rejected 429 "Resource exhausted"; rejected 503 "Unavailable"])
      by (repeat constructor).
    destruct (Hchat history Hall) as (Hrun & _).
    exact (f_equal fst Hrun).
  - assert (Hall : Forall (fun c => is_raise c = true)
                     [rejected 429 "Resource exhausted"; rejected 503 "Unavailable"])
      by (repeat constructor).
    destruct (Hrec "prompt" Hall) as (Hrun & _).
    exact (f_equal fst Hrun).
Defined.

(** C3 as stated fails on the chat path. Candidates ["A"; "B"]: A is
    rejected with 429, B answers 200 with an empty [candidates] array.
    Every candidate has failed and B was the last one tried, but the error
    thrown is A's: it neither is an error B raised nor carries B's
    response. *)
Lemma last_failure_counterexample :
  ~ Claim.last_failure ["A"; "B"]
      (scripted [rejected 429 "Resource exhausted";
                 ok (VObj [("candidates", VArr [])])])
      (VArr [user_turn (VStr "I feel dizzy")]) [].
Proof.
  intros H.
  specialize (H (VStr "ya29.token") eq_refl).
  simpl in H.
  assert (Hne : ["A"; "B"] <> []) by discriminate.
  assert (Hall : Forall (fun c => Chat.no_text c = true)
                   [rejected 429 "Resource exhausted";
                    ok (VObj [("candidates", VArr [])])]) by (repeat constructor).
  destruct (H Hne Hall) as (e & He & Hrep).
  vm_compute in He. injection He as <-.
  vm_compute in Hrep. discriminate Hrep.
Qed.

Example chat_exhausted_throws_first_error :
  fst (Chat.callGeminiAPI_with ["A"; "B"]
         (scripted [rejected 429 "Resource exhausted";
                    ok (VObj [("candidates", VArr [])])])
         (VArr [user_turn (VStr "I feel dizzy")]) [])
  = Throw (rejection 429 "Resource exhausted").
Proof. reflexivity. Qed.

(** ** The Generation Invoker: a resolved call without text *)

(** C4, amended. At every candidate position (every state of the loop:
    remaining candidates, remembered error, trace), when the candidate's
    call resolves (2xx):
    - on the chat path, if the response has no truthy text, the pass
      changes nothing but the trace: the remembered last error stays as it
      was and the loop goes on with the next candidate;
    - on the recommendation path the loop returns the response body at once,
      whatever it carries, and no later candidate is tried; when the
      Response Extractor then finds no text in it, the handler answers 500
      "No recommendations content in AI response". *)
Theorem resolved_without_text (w : World) (accessToken : value) (modelName : string)
    (rest : list string) (lastError : option Error) (log : Trace)
    (resp : HttpResponse) :
  (forall history : value,
      let req := Chat.request w accessToken history modelName in
      post_reply w log req = Normal resp ->
      truthy (Chat.aiText resp) = false ->
      Chat.attempt w accessToken history modelName lastError log
      = (Continue lastError, log ++ [EvPost req]) /\
      for_of (Chat.attempt w accessToken history) "All Gemini models failed"
        (modelName :: rest) lastError log
      = for_of (Chat.attempt w accessToken history) "All Gemini models failed"
          rest lastError (log ++ [EvPost req])) /\
  (forall prompt : string,
      let req := Recommendation.request w accessToken prompt modelName in
      post_reply w log req = Normal resp ->
      Recommendation.attempt w accessToken prompt modelName lastError log
      = (Return (data resp), log ++ [EvPost req]) /\
      for_of (Recommendation.attempt w accessToken prompt) "All Vertex AI models failed"
        (modelName :: rest) lastError log
      = (Normal (data resp), log ++ [EvPost req])) /\
  (forall (names : list string) (prompt : string) (log0 log' : Trace) (aiResp : value),
      Recommendation.generateWithVertexAI_with names w prompt log0 = (Normal aiResp, log') ->
      extractAiText aiResp = Normal VNull ->
      Recommendation.generateHealthRecommendations_steps34 names w prompt log0
      = (Normal (inl (Recommendation.no_content aiResp)), log')).
Proof.
  split; [|split].
  - intros history req Hpost Htext.
    assert (Hstep : Chat.attempt w accessToken history modelName lastError log
                    = (Continue lastError, log ++ [EvPost req])).
    { unfold Chat.attempt, post. fold req. now rewrite Hpost, Htext. }
    split; [exact Hstep|].
    cbn [for_of]. now rewrite Hstep.
  - intros prompt req Hpost.
    assert (Hstep : Recommendation.attempt w accessToken prompt modelName lastError log
                    = (Return (data resp), log ++ [EvPost req])).
    { unfold Recommendation.attempt, post. fold req. now rewrite Hpost. }
    split; [exact Hstep|].
    cbn [for_of]. now rewrite Hstep.
  - intros names prompt log0 log' aiResp Hrun Hnull.
    now rewrite (recommendations_of_response _ _ _ _ _ _ Hrun _ Hnull).
Qed.

(** Candidates ["A"; "B"] after the token fetch: A answers 200 with an
    empty [candidates] array, B answers 200 with text. The chat loop goes
    on to B and returns its text; the recommendation loop returns A's body. *)
Lemma resolved_without_text_witness :
  let w := scripted [ok (VObj [("candidates", VArr [])]);
                     ok (envelope (VStr "Drink water."))] in
  let tok := VStr "ya29.token" in
  let history := VArr [user_turn (VStr "I feel dizzy")] in
  for_of (Chat.attempt w tok history) "All Gemini models failed" ["A"; "B"] None
    [EvGetAccessToken]
  = (Normal (VStr "Drink water."),
     [EvGetAccessToken; EvPost (Chat.request w tok history "A");
      EvPost (Chat.request w tok history "B")]) /\
  for_of (Recommendation.attempt w tok "prompt") "All Vertex AI models failed"
    ["A"; "B"] None [EvGetAccessToken]
  = (Normal (VObj [("candidates", VArr [])]),
     [EvGetAccessToken; EvPost (Recommendation.request w tok "prompt" "A")]).
Proof.
  intros w tok history.
  destruct (resolved_without_text w tok "A" ["B"] None [EvGetAccessToken]
              (mkResponse 200 (VObj [("candidates", VArr [])])))
    as (Hchat & Hrec & _).
  split.
  - destruct (Hchat history eq_refl eq_refl) as [_ Hloop].
    exact (eq_trans Hloop eq_refl).
  - destruct (Hrec "prompt" eq_refl) as [_ Hloop].
    exact Hloop.
Defined.

(** C4 as stated fails on both paths. Candidate "A" answers 200 with an
    empty [candidates] array and no error is remembered yet: the
    recommendation pass does not go on at all (it returns), and the chat
    pass goes on with no error recorded. *)
Lemma absent_recorded_counterexample :
  let w := scripted [ok (VObj [("candidates", VArr [])]);
                     ok (envelope (VStr "Drink water."))] in
  let tok := VStr "ya29.token" in
  let history := VArr [user_turn (VStr "I feel dizzy")] in
  ~ Claim.absent_recorded (Recommendation.attempt w tok "prompt") w
      (Recommendation.request w tok "prompt") Recommendation.text_of
      "A" None [EvGetAccessToken] /\
  ~ Claim.absent_recorded (Chat.attempt w tok history) w
      (Chat.request w tok history) Chat.aiText
      "A" None [EvGetAccessToken].
Proof.
  intros w tok history. split; intros H.
  - destruct (H (mkResponse 200 (VObj [("candidates", VArr [])])) eq_refl eq_refl)
      as (e & He & _).
    vm_compute in He. discriminate He.
  - destruct (H (mkResponse 200 (VObj [("candidates", VArr [])])) eq_refl eq_refl)
      as (e & He & _).
    vm_compute in He. discriminate He.
Qed.

(** ** The Generation Invoker: one token per call *)

Lemma Forall_bearer (accessToken : value) (mk : string -> Request)
    (names : list string) (n : nat) (P : Request -> Prop) :
  (forall modelName, P (mk modelName)) ->
  Forall P (firstn n (map mk names)).
Proof.
  intros HP. rewrite firstn_map. apply Forall_map.
  apply Forall_forall. intros x _. apply HP.
Qed.


Lemma callGeminiAPI_posts (names : list string) (w : World) (log : Trace)
    (history : value) :
  exists reqs,
    snd (Chat.callGeminiAPI_with names w history log)
    = log ++ EvGetAccessToken :: map EvPost reqs /\
    Forall (fun r => fst (Chat.getAccessToken w log) = Normal (bearer r) /\
                     body r = Chat.requestBody history) reqs.
Proof.
  destruct (fst (Chat.getAccessToken w log)) as [tok|err] eqn:Htok.
  - rewrite (callGeminiAPI_token _ _ _ _ _ Htok).
    destruct (for_of_trace w (Chat.request w tok history) Chat.accept
                _ "All Gemini models failed"
                (chat_attempt_posts w tok history)
                names None (log ++ [EvGetAccessToken])) as (n & _ & Hs).
    eexists. split.
    + rewrite Hs. apply cons_app_trace.
    + apply (Forall_bearer tok). intros modelName. split; reflexivity.
  - rewrite (callGeminiAPI_no_token _ _ _ _ _ Htok).
    exists []. split; [reflexivity|constructor].
Qed.






(** Two chat calls in a row against a provider that rotates its tokens:
    each call fetches once and posts with the token of its own fetch. *)
Example token_fetched_afresh :
  let history := VArr [user_turn (VStr "hello")] in
  let first := Chat.callGeminiAPI rotating history [] in
  let second := Chat.callGeminiAPI rotating history (snd first) in
  map bearer (posts_of (snd second)) = [VStr "token-1"; VStr "token-2"] /\
  token_fetches (snd second) = 2.
Proof. split; reflexivity. Qed.

(** ** The chat handler *)

Lemma chat_with_nullish (names : list string) (w : World) (req_body : value)
    (log : Trace) :
  nullish req_body = true ->
  Chat.chat_with names w req_body log
  = (Normal (Chat.chat_crashed (cannot_destructure "sessionId" "req.body" req_body)), log).
Proof.
  intros H. unfold Chat.chat_with, catch, bind, lift, ret, destructure. now rewrite H.
Qed.

Lemma chat_with_invalid (names : list string) (w : World) (req_body : value)
    (log : Trace) :
  nullish req_body = false ->
  truthy (get req_body "sessionId") && truthy (get req_body "message") = false ->
  Chat.chat_with names w req_body log = (Normal Chat.bad_request, log).
Proof.
  intros Hn Hv. unfold Chat.chat_with, catch, bind, lift, ret, destructure. rewrite Hn.
  apply andb_false_iff in Hv.
  destruct Hv as [-> | ->]; simpl; [reflexivity|].
  now rewrite orb_true_r.
Qed.

(** The log lines cannot print the session identifier or the message: the
    handler answers 500 without a fetch or a post. *)
Lemma chat_with_unprintable (names : list string) (w : World) (req_body : value)
    (log : Trace) :
  nullish req_body = false ->
  truthy (get req_body "sessionId") = true ->
  truthy (get req_body "message") = true ->
  convertible (get req_body "sessionId") && convertible (get req_body "message") = false ->
  Chat.chat_with names w req_body log = (Normal (Chat.chat_crashed cannot_convert), log).
Proof.
  intros Hn Hs Hm Hc.
  unfold Chat.chat_with, catch, bind, lift, ret, destructure, interpolate.
  rewrite Hn, Hs, Hm. simpl.
  destruct (convertible (get req_body "sessionId")); [|reflexivity].
  simpl in Hc. now rewrite Hc.
Qed.

Lemma chat_with_valid (names : list string) (w : World) (req_body : value)
    (log : Trace) :
  nullish req_body = false ->
  truthy (get req_body "sessionId") = true ->
  truthy (get req_body "message") = true ->
  convertible (get req_body "sessionId") = true ->
  convertible (get req_body "message") = true ->
  Chat.chat_with names w req_body log
  = match Chat.callGeminiAPI_with names w
            (VArr (Chat.geminiHistory (get req_body "conversationHistory")
                     (get req_body "message"))) log with
    | (Normal aiResponse, log') =>
        (Normal (Chat.chat_ok (get req_body "sessionId") (get req_body "message")
                   aiResponse (clock w log')), log')
    | (Throw error, log') => (Normal (Chat.chat_failed error), log')
    end.
Proof.
  intros Hn Hs Hm Hcs Hcm.
  unfold Chat.chat_with, catch, bind, lift, ret, destructure, interpolate.
  rewrite Hn, Hs, Hm, Hcs, Hcm. simpl.
  destruct (Chat.callGeminiAPI_with names w _ log) as [[aiResponse|error] log'];
    reflexivity.
Qed.

(** Every post the handler causes carries the assembled history. *)
Lemma chat_with_posts (names : list string) (w : World) (req_body : value)
    (log : Trace) :
  exists reqs,
    posts_of (snd (Chat.chat_with names w req_body log)) = posts_of log ++ reqs /\
    Forall (fun r => get (body r) "contents"
                     = VArr (Chat.geminiHistory (get req_body "conversationHistory")
                               (get req_body "message"))) reqs.
Proof.
  destruct (nullish req_body) eqn:Hn.
  - rewrite (chat_with_nullish _ _ _ _ Hn). exists [].
    split; [now rewrite app_nil_r|constructor].
  - destruct (truthy (get req_body "sessionId") && truthy (get req_body "message"))
      eqn:Hv.
    + apply andb_true_iff in Hv. destruct Hv as [Hs Hm].
      destruct (convertible (get req_body "sessionId")
                && convertible (get req_body "message")) eqn:Hc.
      * apply andb_true_iff in Hc. destruct Hc as [Hcs Hcm].
        rewrite (chat_with_valid _ _ _ _ Hn Hs Hm Hcs Hcm).
        destruct (callGeminiAPI_posts names w log
                    (VArr (Chat.geminiHistory (get req_body "conversationHistory")
                             (get req_body "message")))) as (reqs & E & F).
        exists reqs. split.
        -- destruct (Chat.callGeminiAPI_with names w _ log) as [[aiResponse|error] log'];
             simpl in E |- *; subst log';
             change (EvGetAccessToken :: map EvPost reqs)
               with ([EvGetAccessToken] ++ map EvPost reqs);
             now rewrite !posts_of_app, posts_of_posts.
        -- apply (Forall_impl _ (fun r H => f_equal (fun b => get b "contents") (proj2 H)) F).
      * rewrite (chat_with_unprintable _ _ _ _ Hn Hs Hm Hc). exists [].
        split; [now rewrite app_nil_r|constructor].
    + rewrite (chat_with_invalid _ _ _ _ Hn Hv). exists [].
      split; [now rewrite app_nil_r|constructor].
Qed.

(** ** The Conversation Assembler *)

(** C7. For every prior history [H] and every new message [m] the
    Conversation Assembler produces [H] followed by one turn with role
    [user] and text [m], in the order of [H]; for an empty or absent history
    it produces that turn alone; whatever the history field holds, the
    sequence ends with the new turn; and every request the chat handler
    sends upstream carries a sequence that ends with the user turn of the
    newest message. *)
Theorem geminiHistory_appends_user_turn (H : list value) (m : value) :
  Chat.geminiHistory (VArr H) m = H ++ [user_turn m] /\
  Chat.geminiHistory (VArr []) m = [user_turn m] /\
  Chat.geminiHistory VUndefined m = [user_turn m] /\
  Chat.geminiHistory VNull m = [user_turn m] /\
  (forall h d, last (Chat.geminiHistory h m) d = user_turn m) /\
  get (user_turn m) "role" = VStr "user" /\
  get (get0 (get (user_turn m) "parts")) "text" = m /\
  (forall (names : list string) (w : World) (req_body : value) (log : Trace),
      exists reqs,
        posts_of (snd (Chat.chat_with names w req_body log)) = posts_of log ++ reqs /\
        Forall (fun r => exists turns,
                    get (body r) "contents" = VArr turns /\
                    last turns VNull = user_turn (get req_body "message")) reqs).
Proof.
  assert (Hlast : forall h m' d, last (Chat.geminiHistory h m') d = user_turn m').
  { intros h m' d. unfold Chat.geminiHistory. apply last_last. }
  refine (conj eq_refl (conj eq_refl (conj eq_refl (conj eq_refl
           (conj (fun h d => Hlast h m d) (conj eq_refl (conj eq_refl _))))))).
  intros names w req_body log.
  destruct (chat_with_posts names w req_body log) as (reqs & E & F).
  exists reqs. split; [exact E|].
  revert F. apply Forall_impl. intros r Hr.
  eexists. split; [exact Hr|apply Hlast].
Qed.

(** C10. For every chat request whose [conversationHistory] is not an
    array (a string, a number, an object, ...), the assembled sequence is
    the single new user turn, every request sent upstream carries exactly
    that sequence, and the handler answers as it does for the same request
    with an empty history: the history is never a reason to reject. When
    the session identifier and the message pass validation and the log
    lines can print them (both convert to a string), the answer is the
    outcome of the generation call on that single turn; when one of them
    does not convert, the answer is 500 "Failed to process chat message"
    and nothing is sent upstream. *)
Theorem non_array_history_is_empty (names : list string) (w : World) (req_body : value)
    (log : Trace) :
  nullish req_body = false ->
  Chat.isArray (get req_body "conversationHistory") = false ->
  let sessionId := get req_body "sessionId" in
  let message := get req_body "message" in
  Chat.geminiHistory (get req_body "conversationHistory") message = [user_turn message] /\
  Chat.chat_with names w req_body log
  = Chat.chat_with names w (Chat.chat_body sessionId message (VArr [])) log /\
  (exists reqs,
      posts_of (snd (Chat.chat_with names w req_body log)) = posts_of log ++ reqs /\
      Forall (fun r => get (body r) "contents" = VArr [user_turn message]) reqs) /\
  (truthy sessionId = true -> truthy message = true ->
   convertible sessionId = true -> convertible message = true ->
   Chat.chat_with names w req_body log
   = match Chat.callGeminiAPI_with names w (VArr [user_turn message]) log with
     | (Normal aiResponse, log') =>
         (Normal (Chat.chat_ok sessionId message aiResponse (clock w log')), log')
     | (Throw error, log') => (Normal (Chat.chat_failed error), log')
     end) /\
  (truthy sessionId = true -> truthy message = true ->
   convertible sessionId && convertible message = false ->
   Chat.chat_with names w req_body log
   = (Normal (Chat.chat_crashed cannot_convert), log)).
Proof.
  intros Hn Harr sessionId message.
  assert (Hh : Chat.geminiHistory (get req_body "conversationHistory") message
               = [user_turn message]).
  { unfold Chat.geminiHistory. rewrite Harr, andb_false_r. reflexivity. }
  split; [exact Hh|]. split; [|split; [|split]].
  - destruct (truthy sessionId && truthy message) eqn:Hv.
    + apply andb_true_iff in Hv. destruct Hv as [Hs Hm].
      destruct (convertible sessionId && convertible message) eqn:Hc.
      * apply andb_true_iff in Hc. destruct Hc as [Hcs Hcm].
        rewrite (chat_with_valid _ _ _ _ Hn Hs Hm Hcs Hcm).
        rewrite (chat_with_valid names w (Chat.chat_body sessionId message (VArr [])) log
                   eq_refl Hs Hm Hcs Hcm).
        fold message. rewrite Hh. reflexivity.
      * rewrite (chat_with_unprintable _ _ _ _ Hn Hs Hm Hc).
        now rewrite (chat_with_unprintable names w
                       (Chat.chat_body sessionId message (VArr [])) log eq_refl Hs Hm Hc).
    + rewrite (chat_with_invalid _ _ _ _ Hn Hv).
      now rewrite (chat_with_invalid names w
                     (Chat.chat_body sessionId message (VArr [])) log eq_refl Hv).
  - destruct (chat_with_posts names w req_body log) as (reqs & E & F).
    exists reqs. split; [exact E|].
    fold message in F. rewrite Hh in F. exact F.
  - intros Hs Hm Hcs Hcm. rewrite (chat_with_valid _ _ _ _ Hn Hs Hm Hcs Hcm).
    fold message. rewrite Hh. reflexivity.
  - intros Hs Hm Hc. apply (chat_with_unprintable _ _ _ _ Hn Hs Hm Hc).
Qed.

(** A request whose history is the string "previous chat": the upstream
    receives the single turn and the handler answers 200. *)
Lemma non_array_history_is_empty_witness :
  let w := scripted [ok (envelope (VStr "Drink water."))] in
  let req_body := Chat.chat_body (VStr "session-1") (VStr "I feel dizzy")
                    (VStr "previous chat") in
  map (fun r => get (body r) "contents") (posts_of (snd (Chat.chat w req_body [])))
  = [VArr [user_turn (VStr "I feel dizzy")]] /\
  fst (Chat.chat w req_body [])
  = Normal (Chat.chat_ok (VStr "session-1") (VStr "I feel dizzy") (VStr "Drink water.")
              "2025-11-02T10:30:00.000Z").
Proof.
  intros w req_body.
  destruct (non_array_history_is_empty Chat.modelNames w req_body [] eq_refl eq_refl)
    as (_ & _ & _ & Hrun & _).
  split; [reflexivity|].
  exact (f_equal fst (Hrun eq_refl eq_refl eq_refl eq_refl)).
Defined.

(** ** The session identifier *)




(** A session identifier that is an object with a [toString] key of its
    own is truthy but cannot be printed: 500, and nothing is fetched or
    posted. *)
Example chat_unprintable_session :
  Chat.chat (scripted [ok (envelope (VStr "Drink water."))])
    (Chat.chat_body (VObj [("toString", VNum 1)]) (VStr "I feel dizzy") VUndefined) []
  = (Normal (Chat.chat_crashed cannot_convert), []).
Proof. reflexivity. Qed.

Example chat_rejects_empty_session :
  Chat.chat (scripted [ok (envelope (VStr "Drink water."))])
    (Chat.chat_body (VStr "") (VStr "I feel dizzy") VUndefined) []
  = (Normal Chat.bad_request, []).
Proof. reflexivity. Qed.

(** * Beyond the claims *)

(** ** The candidate loop, read backwards *)

Lemma passed_over_split (accept : HttpResponse -> option value)
    (answers : list (completion HttpResponse)) :
  Forall (fun c => passed_over accept c = true) answers \/
  exists k resp v,
    nth_error answers k = Some (Normal resp) /\
    accept resp = Some v /\
    Forall (fun c => passed_over accept c = true) (firstn k answers).
Proof.
  induction answers as [|c answers IH].
  - left. constructor.
  - destruct (passed_over accept c) eqn:Hc.
    + destruct IH as [Hall | (k & resp & v & Hk & Hv & Hpre)].
      * left. now constructor.
      * right. exists (S k), resp, v. repeat split; try assumption.
        simpl. now constructor.
    + right. destruct c as [resp|e]; [|discriminate].
      simpl in Hc. destruct (accept resp) as [v|] eqn:Hv; [|discriminate].
      exists 0, resp, v. repeat split; try assumption. constructor.
Qed.

Section ForOfOutcome.

Variable w : World.
Variable mk : string -> Request.
Variable accept : HttpResponse -> option value.
Variable attempt : string -> option Error -> Trace -> Step * Trace.
Variable exhausted : string.

Hypothesis attempt_posts :
  forall modelName lastError log,
    attempt modelName lastError log = attempt_of w mk accept modelName lastError log.

(** A loop that returns has returned what it accepted from the first
    answer it did not pass over. *)
Lemma for_of_returned (names : list string) (lastError : option Error)
    (log log' : Trace) (v : value) :
  for_of attempt exhausted names lastError log = (Normal v, log') ->
  exists k resp,
    k < List.length names /\
    nth_error (replies w (map mk names) log) k = Some (Normal resp) /\
    accept resp = Some v /\
    Forall (fun c => passed_over accept c = true)
      (firstn k (replies w (map mk names) log)) /\
    log' = log ++ map EvPost (firstn (S k) (map mk names)).
Proof.
  intros Hrun.
  destruct (passed_over_split accept (replies w (map mk names) log))
    as [Hall | (k & resp & v' & Hk & Hv & Hpre)].
  - rewrite (for_of_exhausted w mk accept attempt exhausted attempt_posts
               names lastError log Hall) in Hrun.
    discriminate Hrun.
  - assert (Hlt : k < List.length names).
    { assert (Hs : nth_error (replies w (map mk names) log) k <> None)
        by (rewrite Hk; discriminate).
      apply nth_error_Some in Hs. now rewrite replies_length, length_map in Hs. }
    assert (Hk1 : 1 <= S k <= List.length names) by lia.
    replace k with (S k - 1) in Hk, Hpre by lia.
    rewrite (for_of_first_accepted w mk accept attempt exhausted attempt_posts
               names lastError log (S k) resp v' Hk1 Hpre Hk Hv) in Hrun.
    injection Hrun as <- <-.
    replace (S k - 1) with k in Hk, Hpre by lia.
    exists k, resp. repeat split; assumption.
Qed.

(** A loop that throws has passed over every answer. *)
Lemma for_of_thrown (names : list string) (lastError : option Error)
    (log log' : Trace) (e : Error) :
  for_of attempt exhausted names lastError log = (Throw e, log') ->
  Forall (fun c => passed_over accept c = true) (replies w (map mk names) log) /\
  e = or_new_Error (last_raised (replies w (map mk names) log) lastError) exhausted /\
  log' = log ++ map EvPost (map mk names).
Proof.
  intros Hrun.
  destruct (passed_over_split accept (replies w (map mk names) log))
    as [Hall | (k & resp & v' & Hk & Hv & Hpre)].
  - rewrite (for_of_exhausted w mk accept attempt exhausted attempt_posts
               names lastError log Hall) in Hrun.
    injection Hrun as <- <-. repeat split; [assumption|reflexivity..].
  - assert (Hlt : k < List.length names).
    { assert (Hs : nth_error (replies w (map mk names) log) k <> None)
        by (rewrite Hk; discriminate).
      apply nth_error_Some in Hs. now rewrite replies_length, length_map in Hs. }
    assert (Hk1 : 1 <= S k <= List.length names) by lia.
    replace k with (S k - 1) in Hk, Hpre by lia.
    rewrite (for_of_first_accepted w mk accept attempt exhausted attempt_posts
               names lastError log (S k) resp v' Hk1 Hpre Hk Hv) in Hrun.
    discriminate Hrun.
Qed.

End ForOfOutcome.

(** ** What an outcome of the Generation Invoker tells *)

Lemma Forall_no_text (answers : list (completion HttpResponse)) :
  Forall (fun c => passed_over Chat.accept c = true) answers ->
  Forall (fun c => Chat.no_text c = true) answers.
Proof. apply Forall_impl. intros c Hc. now rewrite <- chat_passed_over. Qed.

Lemma Forall_is_raise (answers : list (completion HttpResponse)) :
  Forall (fun c => passed_over Recommendation.accept c = true) answers ->
  Forall (fun c => is_raise c = true) answers.
Proof. apply Forall_impl. intros c Hc. now rewrite <- recommendation_passed_over. Qed.

(** X1. When [callGeminiAPI] returns, the token was obtained and the value
    returned is the truthy text of the first candidate answer that carried
    one: every candidate before it was posted to and failed, and nothing
    was posted after it. In particular the chat path never returns an
    empty, [null] or [undefined] text. *)
Theorem callGeminiAPI_returned_text (names : list string) (w : World) (history : value)
    (log log' : Trace) (v : value) :
  Chat.callGeminiAPI_with names w history log = (Normal v, log') ->
  exists accessToken k resp,
    fst (Chat.getAccessToken w log) = Normal accessToken /\
    k < List.length names /\
    nth_error (replies w (map (Chat.request w accessToken history) names)
                 (log ++ [EvGetAccessToken])) k = Some (Normal resp) /\
    v = Chat.aiText resp /\
    truthy v = true /\
    Forall (fun c => Chat.no_text c = true)
      (firstn k (replies w (map (Chat.request w accessToken history) names)
                   (log ++ [EvGetAccessToken]))) /\
    log' = log ++ EvGetAccessToken
               :: map EvPost (firstn (S k) (map (Chat.request w accessToken history) names)).
Proof.
  intros Hrun.
  destruct (fst (Chat.getAccessToken w log)) as [tok|err] eqn:Htok.
  - rewrite (callGeminiAPI_token _ _ _ _ _ Htok) in Hrun.
    destruct (for_of_returned w (Chat.request w tok history) Chat.accept _ _
                (chat_attempt_posts w tok history) _ _ _ _ _ Hrun)
      as (k & resp & Hlt & Hk & Hv & Hpre & ->).
    unfold Chat.accept in Hv.
    destruct (truthy (Chat.aiText resp)) eqn:Ht; [|discriminate].
    injection Hv as <-.
    exists tok, k, resp. repeat split; try assumption.
    + now apply Forall_no_text.
    + apply cons_app_trace.
  - rewrite (callGeminiAPI_no_token _ _ _ _ _ Htok) in Hrun. discriminate Hrun.
Qed.

Lemma callGeminiAPI_returned_text_witness :
  let w := scripted [rejected 429 "Resource exhausted";
                     ok (envelope (VStr "Drink water."))] in
  let history := VArr [user_turn (VStr "I feel dizzy")] in
  exists accessToken k resp,
    fst (Chat.getAccessToken w []) = Normal accessToken /\
    k < 2 /\
    nth_error (replies w (map (Chat.request w accessToken history) ["A"; "B"])
                 ([] ++ [EvGetAccessToken])) k = Some (Normal resp) /\
    VStr "Drink water." = Chat.aiText resp /\
    truthy (VStr "Drink water.") = true /\
    Forall (fun c => Chat.no_text c = true)
      (firstn k (replies w (map (Chat.request w accessToken history) ["A"; "B"])
                   ([] ++ [EvGetAccessToken]))) /\
    snd (Chat.callGeminiAPI_with ["A"; "B"] w history [])
    = [] ++ EvGetAccessToken
           :: map EvPost (firstn (S k) (map (Chat.request w accessToken history) ["A"; "B"])).
Proof.
  intros w history.
  exact (callGeminiAPI_returned_text ["A"; "B"] w history []
           (snd (Chat.callGeminiAPI_with ["A"; "B"] w history []))
           (VStr "Drink water.") eq_refl).
Defined.

(** X2. When [generateWithVertexAI] returns, the token was obtained and the
    value returned is the whole body of the first call that resolved: every
    candidate before it was posted to and rejected, and nothing was posted
    after it. *)
Theorem generateWithVertexAI_returned_body (names : list string) (w : World)
    (prompt : string) (log log' : Trace) (aiResp : value) :
  Recommendation.generateWithVertexAI_with names w prompt log = (Normal aiResp, log') ->
  exists accessToken k resp,
    fst (Recommendation.getAccessToken w log) = Normal accessToken /\
    k < List.length names /\
    nth_error (replies w (map (Recommendation.request w accessToken prompt) names)
                 (log ++ [EvGetAccessToken])) k = Some (Normal resp) /\
    aiResp = data resp /\
    Forall (fun c => is_raise c = true)
      (firstn k (replies w (map (Recommendation.request w accessToken prompt) names)
                   (log ++ [EvGetAccessToken]))) /\
    log' = log ++ EvGetAccessToken
               :: map EvPost
                    (firstn (S k) (map (Recommendation.request w accessToken prompt) names)).
Proof.
  intros Hrun.
  destruct (fst (Recommendation.getAccessToken w log)) as [tok|err] eqn:Htok.
  - rewrite (generateWithVertexAI_token _ _ _ _ _ Htok) in Hrun.
    destruct (for_of_returned w (Recommendation.request w tok prompt)
                Recommendation.accept _ _
                (recommendation_attempt_posts w tok prompt) _ _ _ _ _ Hrun)
      as (k & resp & Hlt & Hk & Hv & Hpre & ->).
    injection Hv as <-.
    exists tok, k, resp. repeat split; try assumption.
    apply cons_app_trace.
  - rewrite (generateWithVertexAI_no_token _ _ _ _ _ Htok) in Hrun. discriminate Hrun.
Qed.

Lemma generateWithVertexAI_returned_body_witness :
  let w := scripted [rejected 429 "Resource exhausted";
                     ok (VObj [("candidates", VArr [])])] in
  exists accessToken k resp,
    fst (Recommendation.getAccessToken w []) = Normal accessToken /\
    k < 2 /\
    nth_error (replies w (map (Recommendation.request w accessToken "prompt") ["A"; "B"])
                 ([] ++ [EvGetAccessToken])) k = Some (Normal resp) /\
    VObj [("candidates", VArr [])] = data resp /\
    Forall (fun c => is_raise c = true)
      (firstn k (replies w (map (Recommendation.request w accessToken "prompt") ["A"; "B"])
                   ([] ++ [EvGetAccessToken]))) /\
    snd (Recommendation.generateWithVertexAI_with ["A"; "B"] w "prompt" [])
    = [] ++ EvGetAccessToken
           :: map EvPost
                (firstn (S k)
                   (map (Recommendation.request w accessToken "prompt") ["A"; "B"])).
Proof.
  intros w.
  exact (generateWithVertexAI_returned_body ["A"; "B"] w "prompt" []
           (snd (Recommendation.generateWithVertexAI_with ["A"; "B"] w "prompt" []))
           (VObj [("candidates", VArr [])]) eq_refl).
Defined.

(** X3. [callGeminiAPI] throws in two situations only: the token was
    refused, and then the error is the provider's and nothing was posted;
    or the token was obtained, every candidate was posted to and failed,
    and the error is the last one a call raised, or "All Gemini models
    failed" when none raised. *)
Theorem callGeminiAPI_thrown (names : list string) (w : World) (history : value)
    (log log' : Trace) (e : Error) :
  Chat.callGeminiAPI_with names w history log = (Throw e, log') ->
  (fst (Chat.getAccessToken w log) = Throw e /\ log' = log ++ [EvGetAccessToken]) \/
  (exists accessToken,
      fst (Chat.getAccessToken w log) = Normal accessToken /\
      let reqs := map (Chat.request w accessToken history) names in
      let answers := replies w reqs (log ++ [EvGetAccessToken]) in
      Forall (fun c => Chat.no_text c = true) answers /\
      e = or_new_Error (last_raised answers None) "All Gemini models failed" /\
      log' = log ++ EvGetAccessToken :: map EvPost reqs).
Proof.
  intros Hrun.
  destruct (fst (Chat.getAccessToken w log)) as [tok|err] eqn:Htok.
  - right. rewrite (callGeminiAPI_token _ _ _ _ _ Htok) in Hrun.
    destruct (for_of_thrown w (Chat.request w tok history) Chat.accept _ _
                (chat_attempt_posts w tok history) _ _ _ _ _ Hrun)
      as (Hall & -> & ->).
    exists tok. repeat split.
    + now apply Forall_no_text.
    + apply cons_app_trace.
  - left. rewrite (callGeminiAPI_no_token _ _ _ _ _ Htok) in Hrun.
    injection Hrun as <- <-. split; reflexivity.
Qed.

Lemma callGeminiAPI_thrown_witness :
  let w := scripted [ok (VObj [("candidates", VArr [])]); ok VNull] in
  let history := VArr [user_turn (VStr "I feel dizzy")] in
  (fst (Chat.getAccessToken w []) = Throw (new_Error "All Gemini models failed") /\
   snd (Chat.callGeminiAPI_with ["A"; "B"] w history []) = [] ++ [EvGetAccessToken]) \/
  (exists accessToken,
      fst (Chat.getAccessToken w []) = Normal accessToken /\
      let reqs := map (Chat.request w accessToken history) ["A"; "B"] in
      let answers := replies w reqs ([] ++ [EvGetAccessToken]) in
      Forall (fun c => Chat.no_text c = true) answers /\
      new_Error "All Gemini models failed"
      = or_new_Error (last_raised answers None) "All Gemini models failed" /\
      snd (Chat.callGeminiAPI_with ["A"; "B"] w history [])
      = [] ++ EvGetAccessToken :: map EvPost reqs).
Proof.
  intros w history.
  exact (callGeminiAPI_thrown ["A"; "B"] w history []
           (snd (Chat.callGeminiAPI_with ["A"; "B"] w history []))
           (new_Error "All Gemini models failed") eq_refl).
Defined.

(** X4. [generateWithVertexAI] throws in two situations only: the token
    was refused, and then the error wraps the provider's message and
    nothing was posted; or the token was obtained, every candidate was
    posted to and rejected, and the error is the one the last candidate
    raised, or "All Vertex AI models failed" for an empty candidate list. *)
Theorem generateWithVertexAI_thrown (names : list string) (w : World) (prompt : string)
    (log log' : Trace) (e : Error) :
  Recommendation.generateWithVertexAI_with names w prompt log = (Throw e, log') ->
  (exists err,
      fst (Recommendation.getAccessToken w log) = Throw err /\
      e = new_Error ("Failed to authenticate with Google Cloud: " ++ message err) /\
      log' = log ++ [EvGetAccessToken]) \/
  (exists accessToken,
      fst (Recommendation.getAccessToken w log) = Normal accessToken /\
      let reqs := map (Recommendation.request w accessToken prompt) names in
      let answers := replies w reqs (log ++ [EvGetAccessToken]) in
      Forall (fun c => is_raise c = true) answers /\
      e = or_new_Error (last_raised answers None) "All Vertex AI models failed" /\
      (forall init e', answers = init ++ [Throw e'] -> e = e') /\
      (names = [] -> e = new_Error "All Vertex AI models failed") /\
      log' = log ++ EvGetAccessToken :: map EvPost reqs).
Proof.
  intros Hrun.
  destruct (fst (Recommendation.getAccessToken w log)) as [tok|err] eqn:Htok.
  - right. rewrite (generateWithVertexAI_token _ _ _ _ _ Htok) in Hrun.
    destruct (for_of_thrown w (Recommendation.request w tok prompt)
                Recommendation.accept _ _
                (recommendation_attempt_posts w tok prompt) _ _ _ _ _ Hrun)
      as (Hall & -> & ->).
    exists tok. repeat split.
    + now apply Forall_is_raise.
    + intros init e' E. now rewrite E, last_raised_snoc.
    + intros ->. reflexivity.
    + apply cons_app_trace.
  - left. rewrite (generateWithVertexAI_no_token _ _ _ _ _ Htok) in Hrun.
    injection Hrun as <- <-. exists err. repeat split.
Qed.

Lemma generateWithVertexAI_thrown_witness :
  let w := scripted [rejected 429 "Resource exhausted"; rejected 503 "Unavailable"] in
  let e := rejection 503 "Unavailable" in
  (exists err,
      fst (Recommendation.getAccessToken w []) = Throw err /\
      e = new_Error ("Failed to authenticate with Google Cloud: " ++ message err) /\
      snd (Recommendation.generateWithVertexAI_with ["A"; "B"] w "prompt" [])
      = [] ++ [EvGetAccessToken]) \/
  (exists accessToken,
      fst (Recommendation.getAccessToken w []) = Normal accessToken /\
      let reqs := map (Recommendation.request w accessToken "prompt") ["A"; "B"] in
      let answers := replies w reqs ([] ++ [EvGetAccessToken]) in
      Forall (fun c => is_raise c = true) answers /\
      e = or_new_Error (last_raised answers None) "All Vertex AI models failed" /\
      (forall init e', answers = init ++ [Throw e'] -> e = e') /\
      (["A"; "B"] = [] -> e = new_Error "All Vertex AI models failed") /\
      snd (Recommendation.generateWithVertexAI_with ["A"; "B"] w "prompt" [])
      = [] ++ EvGetAccessToken :: map EvPost reqs).
Proof.
  intros w e.
  exact (generateWithVertexAI_thrown ["A"; "B"] w "prompt" []
           (snd (Recommendation.generateWithVertexAI_with ["A"; "B"] w "prompt" []))
           e eq_refl).
Defined.

(** ** The two extractions *)

Lemma aiText_envelope_text (resp : HttpResponse) (t : value) :
  envelope_text (data resp) = Some t ->
  Chat.aiText resp = js_or t VNull.
Proof.
  unfold Chat.aiText, opt_member, opt_index0.
  destruct (data resp) as [ | | | | | |top]; simpl; try discriminate.
  destruct (assoc "candidates" top) as [[ | | | | |cs|]|]; try discriminate.
  destruct cs as [|[ | | | | | |c0] cs]; try discriminate.
  simpl.
  destruct (assoc "content" c0) as [[ | | | | | |content]|]; try discriminate.
  simpl.
  destruct (assoc "parts" content) as [[ | | | | |ps|]|]; try discriminate.
  destruct ps as [|[ | | | | | |p0] ps]; try discriminate.
  simpl. intros ->. reflexivity.
Qed.

(** X5. The Response Extractor always answers with [null] or with a truthy
    value; it answers with a truthy value exactly when
    [candidates[0].content.parts[0].text] is there and truthy, and then
    that value is the answer; and its answer depends on nothing else in the
    response: further candidates, further parts and every other field are
    ignored. *)
Theorem extractAiText_text_or_null (response : value) :
  exists v,
    extractAiText response = Normal v /\
    (v = VNull \/ truthy v = true) /\
    (truthy v = true <->
     exists t, envelope_text response = Some t /\ truthy t = true /\ v = t) /\
    (forall other, envelope_text other = envelope_text response ->
                   extractAiText other = Normal v).
Proof.
  destruct (envelope_text response) as [t|] eqn:E.
  - exists (js_or t VNull). split; [apply (extractAiText_envelope_text _ _ E)|].
    unfold js_or. destruct (truthy t) eqn:Ht.
    + split; [now right|]. split.
      * split; [intros _; now exists t|intros _; exact Ht].
      * intros other Ho. rewrite (extractAiText_envelope_text _ _ Ho).
        unfold js_or. now rewrite Ht.
    + split; [now left|]. split.
      * split; [discriminate|]. intros (t' & [= <-] & Ht' & _). congruence.
      * intros other Ho. rewrite (extractAiText_envelope_text _ _ Ho).
        unfold js_or. now rewrite Ht.
  - exists VNull. split; [apply (extractAiText_malformed _ E)|].
    split; [now left|]. split.
    + split; [discriminate|]. intros (t' & [=] & _).
    + intros other Ho. apply (extractAiText_malformed _ Ho).
Qed.

Example extractAiText_first_part_only :
  extractAiText
    (VObj [("usageMetadata", VObj [("totalTokenCount", VNum 12)]);
           ("candidates",
            VArr [VObj [("content",
                         VObj [("role", VStr "model");
                               ("parts", VArr [VObj [("text", VStr "Drink")];
                                               VObj [("text", VStr " water.")]])])];
                  VObj [("content",
                         VObj [("parts", VArr [VObj [("text", VStr "Rest.")]])])]])])
  = Normal (VStr "Drink").
Proof. reflexivity. Qed.

(** X6. Whenever the Response Extractor of the recommendation path finds
    text in a response, the inline extraction of the chat path finds the
    same text; and the chat extraction, too, yields [null] or a truthy
    value. The converse fails, see [aiText_reads_non_arrays]. *)
Theorem aiText_extends_extractAiText (resp : HttpResponse) :
  (truthy (Recommendation.text_of resp) = true ->
   Chat.aiText resp = Recommendation.text_of resp) /\
  (Chat.aiText resp = VNull \/ truthy (Chat.aiText resp) = true).
Proof.
  split.
  - unfold Recommendation.text_of.
    destruct (envelope_text (data resp)) as [t|] eqn:E.
    + rewrite (extractAiText_envelope_text _ _ E), (aiText_envelope_text _ _ E).
      reflexivity.
    + rewrite (extractAiText_malformed _ E). discriminate.
  - unfold Chat.aiText, js_or.
    destruct (truthy (opt_member _ "text")) eqn:Ht; [now right|now left].
Qed.

Lemma aiText_extends_extractAiText_witness :
  Chat.aiText (mkResponse 200 (envelope (VStr "Drink water."))) = VStr "Drink water.".
Proof.
  exact (proj1 (aiText_extends_extractAiText
                  (mkResponse 200 (envelope (VStr "Drink water.")))) eq_refl).
Defined.

(** The chat extraction indexes whatever it finds with [0], so it reads
    through objects keyed by "0" where the Response Extractor, which asks
    for arrays, gives up. *)
Example aiText_reads_non_arrays :
  let body :=
    VObj [("candidates",
           VObj [("0", VObj [("content",
                              VObj [("parts", VObj [("0", VObj [("text", VStr "hi")])])])])])] in
  Chat.aiText (mkResponse 200 body) = VStr "hi" /\
  extractAiText body = Normal VNull.
Proof. split; reflexivity. Qed.

(** ** The Credential Provider *)

(** X7. [getAccessToken] (the same function in both files) succeeds exactly
    when [auth] was initialised and the provider answered with a token
    response that is not [null] or [undefined]; what it returns is that
    response's [token] property as it is, also when the property is
    missing: a response without a token is not a failure. *)
Theorem getAccessToken_succeeds_iff (w : World) (log : Trace) (v : value) :
  (fst (Recommendation.getAccessToken w log) = Normal v <->
   auth w = true /\
   exists tokenResponse,
     token_reply w log = Normal tokenResponse /\
     nullish tokenResponse = false /\
     v = get tokenResponse "token") /\
  fst (Chat.getAccessToken w log) = fst (Recommendation.getAccessToken w log).
Proof.
  split; [|reflexivity].
  unfold Recommendation.getAccessToken, try_catch, member. simpl.
  destruct (auth w).
  - destruct (token_reply w log) as [tokenResponse|e]; simpl.
    + destruct (nullish tokenResponse) eqn:Hn.
      * split; [discriminate|]. intros (_ & tr & [= <-] & Hn' & _). congruence.
      * split.
        -- intros [= <-]. split; [reflexivity|]. now exists tokenResponse.
        -- intros (_ & tr & [= <-] & _ & ->). reflexivity.
    + split; [discriminate|]. intros (_ & tr & [=] & _).
  - split; [discriminate|]. intros ([=] & _).
Qed.

(** A provider that answers [{}]: the call goes on and posts with an
    [undefined] token. *)
Example getAccessToken_missing_token :
  let w := mkWorld None None true (fun _ => Normal (VObj []))
             (fun _ _ => ok (envelope (VStr "Drink water.")))
             (fun _ => "2025-11-02T10:30:00.000Z") in
  fst (Chat.getAccessToken w []) = Normal VUndefined /\
  map bearer (posts_of (snd (Chat.callGeminiAPI w (VArr [user_turn (VStr "hello")]) [])))
  = [VUndefined].
Proof. split; reflexivity. Qed.

(** ** Configuration and endpoints *)

(** X8. An environment variable that is unset or empty falls back to the
    default, any other value is used as it is; so [PROJECT_ID] and
    [LOCATION] are never empty (the "VERTEX_PROJECT_ID not set" branch
    that tests [!PROJECT_ID] cannot be taken). *)
Theorem PROJECT_ID_never_empty (w : World) :
  PROJECT_ID w <> "" /\
  LOCATION w <> "" /\
  (forall s, VERTEX_PROJECT_ID w = Some s -> s <> "" -> PROJECT_ID w = s) /\
  (VERTEX_PROJECT_ID w = None \/ VERTEX_PROJECT_ID w = Some "" ->
   PROJECT_ID w = "dolet-app") /\
  (forall s, VERTEX_LOCATION w = Some s -> s <> "" -> LOCATION w = s) /\
  (VERTEX_LOCATION w = None \/ VERTEX_LOCATION w = Some "" ->
   LOCATION w = "us-central1").
Proof.
  unfold PROJECT_ID, LOCATION, env_or.
  destruct (VERTEX_PROJECT_ID w) as [p|]; destruct (VERTEX_LOCATION w) as [l|].
  all: try destruct (String.eqb_spec p ""); try destruct (String.eqb_spec l "").
  all: repeat split; try discriminate; try assumption.
  all: try (intros s [= <-] Hs; try reflexivity; now elim Hs).
  all: try (intros [[=]|[= E]]; try reflexivity; congruence).
Qed.

Lemma append_length (a b : string) :
  String.length (a ++ b)%string = String.length a + String.length b.
Proof. induction a as [|c a IH]; simpl; [reflexivity|now rewrite IH]. Qed.

Lemma append_cancel_l (p a b : string) : (p ++ a)%string = (p ++ b)%string -> a = b.
Proof.
  induction p as [|c p IH]; simpl; intros H; [exact H|].
  injection H as H. now apply IH.
Qed.

Lemma append_cancel_r (s a b : string) : (a ++ s)%string = (b ++ s)%string -> a = b.
Proof.
  revert b. induction a as [|c a IH]; intros [|d b] H; simpl in H.
  - reflexivity.
  - apply (f_equal String.length) in H. simpl in H. rewrite append_length in H. lia.
  - apply (f_equal String.length) in H. simpl in H. rewrite append_length in H. lia.
  - injection H as -> H. f_equal. now apply IH.
Qed.

Lemma model_endpoint_inj (w : World) (m1 m2 : string) :
  model_endpoint w m1 = model_endpoint w m2 -> m1 = m2.
Proof.
  unfold model_endpoint. intros H.
  repeat (apply append_cancel_l in H).
  now apply append_cancel_r in H.
Qed.

Lemma NoDup_map_injective {A B} (f : A -> B) (l : list A) :
  (forall x y, f x = f y -> x = y) -> NoDup l -> NoDup (map f l).
Proof.
  intros Hinj Hl. induction Hl as [|x l Hx Hl IH]; simpl; constructor; [|exact IH].
  intros Hin. apply in_map_iff in Hin. destruct Hin as (y & Hy & Hin).
  apply Hinj in Hy. now subst y.
Qed.

Lemma NoDup_endpoints (w : World) (mk : string -> Request) (names : list string)
    (n : nat) :
  (forall modelName, endpoint (mk modelName) = model_endpoint w modelName) ->
  NoDup names ->
  NoDup (map endpoint (firstn n (map mk names))).
Proof.
  intros Hmk Hnd. rewrite firstn_map, map_map.
  rewrite (map_ext _ (model_endpoint w) Hmk).
  apply NoDup_map_injective; [apply model_endpoint_inj|].
  apply (NoDup_app_remove_r _ (skipn n names)). now rewrite firstn_skipn.
Qed.

(** X9. Different candidate names give different endpoint URLs, so over a
    candidate list without repetition (both hard-coded lists are) one
    invocation never posts to the same URL twice, on either path. *)
Theorem no_endpoint_posted_twice (names : list string) (w : World) (log : Trace)
    (prompt : string) (history : value) :
  NoDup names ->
  (forall m1 m2, model_endpoint w m1 = model_endpoint w m2 -> m1 = m2) /\
  (exists reqs,
      snd (Chat.callGeminiAPI_with names w history log)
      = log ++ EvGetAccessToken :: map EvPost reqs /\
      NoDup (map endpoint reqs)) /\
  (exists reqs,
      snd (Recommendation.generateWithVertexAI_with names w prompt log)
      = log ++ EvGetAccessToken :: map EvPost reqs /\
      NoDup (map endpoint reqs)).
Proof.
  intros Hnd. split; [apply model_endpoint_inj|]. split.
  - destruct (fst (Chat.getAccessToken w log)) as [tok|err] eqn:Htok.
    + destruct (callGeminiAPI_prefix names w history log tok Htok) as (n & _ & Hs).
      eexists. split; [exact Hs|]. now apply (NoDup_endpoints w).
    + rewrite (callGeminiAPI_no_token _ _ _ _ _ Htok).
      exists []. split; [reflexivity|constructor].
  - destruct (fst (Recommendation.getAccessToken w log)) as [tok|err] eqn:Htok.
    + destruct (generateWithVertexAI_prefix names w prompt log tok Htok) as (n & _ & Hs).
      eexists. split; [exact Hs|]. now apply (NoDup_endpoints w).
    + rewrite (generateWithVertexAI_no_token _ _ _ _ _ Htok).
      exists []. split; [reflexivity|constructor].
Qed.

Lemma modelNames_NoDup : NoDup Chat.modelNames /\ NoDup Recommendation.modelNames.
Proof.
  split; repeat constructor; simpl; intuition discriminate.
Qed.

Lemma no_endpoint_posted_twice_witness :
  let w := scripted [rejected 429 "Resource exhausted"; rejected 503 "Unavailable";
                     ok (envelope (VStr "Drink water."))] in
  exists reqs,
    snd (Chat.callGeminiAPI w (VArr [user_turn (VStr "hello")]) [])
    = [] ++ EvGetAccessToken :: map EvPost reqs /\
    NoDup (map endpoint reqs).
Proof.
  intros w.
  exact (proj1 (proj2 (no_endpoint_posted_twice Chat.modelNames w [] "prompt"
                         (VArr [user_turn (VStr "hello")]) (proj1 modelNames_NoDup)))).
Defined.

(** ** The chat handlers *)

Lemma callGeminiAPI_returns_truthy (names : list string) (w : World) (history : value)
    (log log' : Trace) (v : value) :
  Chat.callGeminiAPI_with names w history log = (Normal v, log') ->
  truthy v = true.
Proof.
  intros Hrun.
  destruct (fst (Chat.getAccessToken w log)) as [tok|err] eqn:Htok.
  - rewrite (callGeminiAPI_token _ _ _ _ _ Htok) in Hrun.
    destruct (for_of_returned w (Chat.request w tok history) Chat.accept _ _
                (chat_attempt_posts w tok history) _ _ _ _ _ Hrun)
      as (k & resp & _ & _ & Hv & _).
    unfold Chat.accept in Hv.
    destruct (truthy (Chat.aiText resp)) eqn:Ht; [|discriminate].
    now injection Hv as <-.
  - rewrite (callGeminiAPI_no_token _ _ _ _ _ Htok) in Hrun. discriminate Hrun.
Qed.

(** X10. The [chat] handler always answers: no error escapes it, and the
    status is 200, 400 or 500. It answers 400 exactly when the body is
    there and the session identifier or the message is missing or falsy,
    and then nothing was fetched or posted. A missing body, and a session
    identifier or message that the log lines cannot convert to a string,
    are answered 500 "Failed to process chat message", also with nothing
    fetched or posted. It answers 200 exactly when the request passed these
    checks and the generation call returned, and then [botResponse] is
    that truthy text and [userMessage] the message as it came; when the
    generation call threw, the 500 reply carries the thrown error's
    message. *)
Theorem chat_always_replies (names : list string) (w : World) (req_body : value)
    (log : Trace) :
  exists r log',
    Chat.chat_with names w req_body log = (Normal r, log') /\
    (code r = 200 \/ code r = 400 \/ code r = 500)%Z /\
    (code r = 400%Z <->
     nullish req_body = false /\
     truthy (get req_body "sessionId") && truthy (get req_body "message") = false) /\
    (code r = 400%Z -> log' = log) /\
    (nullish req_body = true ->
     (exists error, r = Chat.chat_crashed error) /\ log' = log) /\
    (nullish req_body = false ->
     truthy (get req_body "sessionId") && truthy (get req_body "message") = true ->
     convertible (get req_body "sessionId") && convertible (get req_body "message")
     = false ->
     r = Chat.chat_crashed cannot_convert /\ log' = log) /\
    (code r = 200%Z <->
     nullish req_body = false /\
     truthy (get req_body "sessionId") && truthy (get req_body "message") = true /\
     convertible (get req_body "sessionId") && convertible (get req_body "message")
     = true /\
     exists v,
       fst (Chat.callGeminiAPI_with names w
              (VArr (Chat.geminiHistory (get req_body "conversationHistory")
                       (get req_body "message"))) log) = Normal v) /\
    (code r = 200%Z ->
     truthy (Chat.botResponse r) = true /\
     fst (Chat.callGeminiAPI_with names w
            (VArr (Chat.geminiHistory (get req_body "conversationHistory")
                     (get req_body "message"))) log) = Normal (Chat.botResponse r) /\
     get (get (json r) "data") "userMessage" = get req_body "message") /\
    (forall e,
        nullish req_body = false ->
        truthy (get req_body "sessionId") && truthy (get req_body "message") = true ->
        convertible (get req_body "sessionId") && convertible (get req_body "message")
        = true ->
        fst (Chat.callGeminiAPI_with names w
               (VArr (Chat.geminiHistory (get req_body "conversationHistory")
                        (get req_body "message"))) log) = Throw e ->
        r = Chat.chat_failed e).
Proof.
  destruct (nullish req_body) eqn:Hn.
  - rewrite (chat_with_nullish _ _ _ _ Hn).
    do 2 eexists. split; [reflexivity|]. cbn [code Chat.chat_crashed].
    repeat split; eauto; try discriminate; intuition discriminate.
  - destruct (truthy (get req_body "sessionId") && truthy (get req_body "message"))
      eqn:Hv.
    + pose proof Hv as Hv'. apply andb_true_iff in Hv'. destruct Hv' as [Hs Hm].
      destruct (convertible (get req_body "sessionId")
                && convertible (get req_body "message")) eqn:Hc.
      * pose proof Hc as Hc'. apply andb_true_iff in Hc'. destruct Hc' as [Hcs Hcm].
        rewrite (chat_with_valid _ _ _ _ Hn Hs Hm Hcs Hcm).
        destruct (Chat.callGeminiAPI_with names w _ log) as [[v|e] log'] eqn:Hrun.
        -- do 2 eexists. split; [reflexivity|]. cbn [code Chat.chat_ok fst].
           pose proof (callGeminiAPI_returns_truthy _ _ _ _ _ _ Hrun) as Ht.
           repeat split; auto; try discriminate; try (intuition discriminate).
           now exists v.
        -- do 2 eexists. split; [reflexivity|]. cbn [code Chat.chat_failed fst].
           repeat split; auto; try discriminate; try (intuition discriminate).
           ++ intros (_ & _ & _ & v & [=]).
           ++ intros e0 _ _ _ [= <-]. reflexivity.
      * rewrite (chat_with_unprintable _ _ _ _ Hn Hs Hm Hc).
        do 2 eexists. split; [reflexivity|]. cbn [code Chat.chat_crashed].
        repeat split; auto; try discriminate; try (intuition discriminate).
    + rewrite (chat_with_invalid _ _ _ _ Hn Hv).
      do 2 eexists. split; [reflexivity|]. cbn [code Chat.bad_request].
      repeat split; auto; try discriminate; try (intuition discriminate).
Qed.

(** X11. Serving one chat request costs at most one token fetch and at
    most one post per candidate (three with the hard-coded list): the
    trace grows by nothing, or by one fetch followed by posts only. *)
Theorem chat_effects_bounded (names : list string) (w : World) (req_body : value)
    (log : Trace) :
  exists evs,
    snd (Chat.chat_with names w req_body log) = log ++ evs /\
    token_fetches evs <= 1 /\
    List.length (posts_of evs) <= List.length names /\
    (evs = [] \/ exists reqs, evs = EvGetAccessToken :: map EvPost reqs) /\
    List.length Chat.modelNames = 3.
Proof.
  assert (Hnone : exists evs,
            log = log ++ evs /\ token_fetches evs <= 1 /\
            List.length (posts_of evs) <= List.length names /\
            (evs = [] \/ exists reqs, evs = EvGetAccessToken :: map EvPost reqs) /\
            List.length Chat.modelNames = 3).
  { exists []. rewrite app_nil_r. simpl. repeat split; auto; lia. }
  destruct (nullish req_body) eqn:Hn.
  - now rewrite (chat_with_nullish _ _ _ _ Hn).
  - destruct (truthy (get req_body "sessionId") && truthy (get req_body "message"))
      eqn:Hv.
    + apply andb_true_iff in Hv. destruct Hv as [Hs Hm].
      destruct (convertible (get req_body "sessionId")
                && convertible (get req_body "message")) eqn:Hc;
        [|now rewrite (chat_with_unprintable _ _ _ _ Hn Hs Hm Hc)].
      apply andb_true_iff in Hc. destruct Hc as [Hcs Hcm].
      rewrite (chat_with_valid _ _ _ _ Hn Hs Hm Hcs Hcm).
      set (history := VArr (Chat.geminiHistory (get req_body "conversationHistory")
                              (get req_body "message"))).
      assert (Hcall : exists reqs,
                snd (Chat.callGeminiAPI_with names w history log)
                = log ++ EvGetAccessToken :: map EvPost reqs /\
                List.length reqs <= List.length names).
      { destruct (fst (Chat.getAccessToken w log)) as [tok|err] eqn:Htok.
        - destruct (callGeminiAPI_prefix names w history log tok Htok) as (n & Hle & Hs').
          eexists. split; [exact Hs'|].
          rewrite length_firstn, length_map. lia.
        - rewrite (callGeminiAPI_no_token _ _ _ _ _ Htok).
          exists []. split; [reflexivity|simpl; lia]. }
      destruct Hcall as (reqs & Hs' & Hle).
      exists (EvGetAccessToken :: map EvPost reqs). split.
      * destruct (Chat.callGeminiAPI_with names w history log) as [[v|e] log'];
          simpl in Hs' |- *; exact Hs'.
      * change (EvGetAccessToken :: map EvPost reqs)
          with ([EvGetAccessToken] ++ map EvPost reqs).
        rewrite token_fetches_app, token_fetches_posts, posts_of_app, posts_of_posts.
        simpl. repeat split; try lia; auto. right. now exists reqs.
    + now rewrite (chat_with_invalid _ _ _ _ Hn Hv).
Qed.

(** X18. [startChat] always answers: 201 with the identifier [uuidv4] gave
    and the [id] of the authenticated user ([null] for a visitor), or 500
    when [uuidv4] threw. A session identifier handed out by [startChat]
    passes the validation of [chat]: sent back with a truthy message it is
    never answered 400, and the 200 reply echoes it. *)
Theorem startChat_session_is_accepted (uuidv4 : completion string) (req_user : value) :
  (exists r, Start.startChat uuidv4 req_user = Normal r) /\
  (forall e, uuidv4 = Throw e ->
             Start.startChat uuidv4 req_user = Normal (Start.start_failed e)) /\
  (forall sessionId,
      uuidv4 = Normal sessionId ->
      exists r,
        Start.startChat uuidv4 req_user = Normal r /\
        code r = 201%Z /\
        Start.sessionId_of r = VStr sessionId /\
        get (get (json r) "data") "userId"
        = (if truthy req_user then get req_user "id" else VNull) /\
        (sessionId <> "" ->
         forall names w message history log,
           truthy message = true ->
           exists reply log',
             Chat.chat_with names w
               (Chat.chat_body (Start.sessionId_of r) message history) log
             = (Normal reply, log') /\
             code reply <> 400%Z /\
             (code reply = 200%Z -> Chat.echoed_sessionId reply = VStr sessionId))).
Proof.
  split; [|split].
  - unfold Start.startChat. destruct uuidv4; simpl; eauto.
  - intros e ->. reflexivity.
  - intros sessionId ->. eexists. split; [reflexivity|].
    cbn [code Start.started]. repeat split.
    intros Hne names w message history log Hm.
    assert (Hs : truthy (VStr sessionId) = true).
    { simpl. destruct (String.eqb_spec sessionId ""); [contradiction|reflexivity]. }
    change (Start.sessionId_of (Start.started sessionId
              (if truthy req_user then get req_user "id" else VNull)))
      with (VStr sessionId).
    destruct (convertible message) eqn:Hcm.
    + rewrite (chat_with_valid names w (Chat.chat_body (VStr sessionId) message history)
                 log eq_refl Hs Hm eq_refl Hcm).
      destruct (Chat.callGeminiAPI_with names w _ log) as [[v|e] log'].
      * do 2 eexists. split; [reflexivity|]. split; [discriminate|]. reflexivity.
      * do 2 eexists. split; [reflexivity|]. split; [discriminate|]. discriminate.
    + rewrite (chat_with_unprintable names w
                 (Chat.chat_body (VStr sessionId) message history) log eq_refl Hs Hm)
        by (simpl; exact Hcm).
      do 2 eexists. split; [reflexivity|]. split; [discriminate|]. discriminate.
Qed.

Lemma startChat_session_is_accepted_witness :
  let w := scripted [ok (envelope (VStr "Drink water."))] in
  exists r,
    Start.startChat (Normal "1b4e28ba-2fa1-41d2-883f-0016d3cca427") VUndefined = Normal r /\
    code r = 201%Z /\
    fst (Chat.chat w (Chat.chat_body (Start.sessionId_of r) (VStr "hello") VUndefined) [])
    = Normal (Chat.chat_ok (VStr "1b4e28ba-2fa1-41d2-883f-0016d3cca427") (VStr "hello")
                (VStr "Drink water.") "2025-11-02T10:30:00.000Z").
Proof.
  intros w.
  destruct (proj2 (proj2 (startChat_session_is_accepted
                            (Normal "1b4e28ba-2fa1-41d2-883f-0016d3cca427") VUndefined))
              _ eq_refl) as (r & Hr & Hcode & _).
  exists r. split; [exact Hr|]. split; [exact Hcode|].
  injection Hr as <-. reflexivity.
Defined.

(** ** The handlers over the database *)

Lemma writes_of_app (l1 l2 : Handler.DbTrace) :
  Handler.writes_of (l1 ++ l2) = Handler.writes_of l1 ++ Handler.writes_of l2.
Proof. unfold Handler.writes_of. apply flat_map_app. Qed.

Ltac unfold_handler H :=
  unfold Handler.generateHealthRecommendations, Handler.getRecommendationByAnalytics,
    Handler.catchH, Handler.bindH, Handler.retH,
    Handler.liftH, Handler.liftM, Handler.findByPk, Handler.save, Handler.bindH,
    Handler.findOne, Handler.update, Handler.create, Handler.respond, cbind, member,
    destructure, interpolate in H;
  cbn [fst snd] in H.

Ltac innermost_case H :=
  match type of H with
  | context [match ?x with _ => _ end] =>
      lazymatch x with
      | context [match _ with _ => _ end] => fail
      | _ => destruct x eqn:?
      end
  end.

Ltac run_cases H :=
  unfold_handler H;
  repeat (cbn beta iota in H; cbn [fst snd] in H; innermost_case H);
  cbn beta iota in H;
  first [discriminate H | injection H as <- <-];
  cbn [fst snd];
  rewrite <- ?app_assoc; cbn [app].

Ltac flip_negb :=
  repeat match goal with
  | Hb : negb _ = true |- _ => apply negb_true_iff in Hb
  | Hb : negb _ = false |- _ => apply negb_false_iff in Hb
  end.

Lemma generateWithVertexAI_cost (names : list string) (w : World) (prompt : string)
    (log : Trace) :
  exists reqs,
    snd (Recommendation.generateWithVertexAI_with names w prompt log)
    = log ++ EvGetAccessToken :: map EvPost reqs /\
    List.length reqs <= List.length names.
Proof.
  destruct (fst (Recommendation.getAccessToken w log)) as [tok|err] eqn:Htok.
  - destruct (generateWithVertexAI_prefix names w prompt log tok Htok) as (n & Hle & Hs).
    eexists. split; [exact Hs|]. rewrite length_firstn, length_map. lia.
  - rewrite (generateWithVertexAI_no_token _ _ _ _ _ Htok).
    exists []. split; [reflexivity|simpl; lia].
Qed.

Section HandlerFacts.

Variable healthRecommendationPrompt : value -> value -> string.
Variable String_of : Error -> string.
Variable db : Handler.Database.
Variable w : World.

Local Abbreviation generateHealthRecommendations :=
  (Handler.generateHealthRecommendations healthRecommendationPrompt String_of db w).

(** X12. [generateHealthRecommendations] always answers: no error escapes
    it, and the status is 200, 400, 404 or 500. When [auth] was never
    initialised it answers 500 at once, before reading the request or the
    database; a request without a body, and one whose [analyticsId] the log
    line cannot convert to a string, are answered 500 "Internal Server
    Error", also with no effect: the database is not called. *)
Theorem generateHealthRecommendations_always_replies (req_body : value)
    (eff : Handler.Effects) :
  exists r eff',
    generateHealthRecommendations req_body eff = (Normal r, eff') /\
    (code r = 200 \/ code r = 400 \/ code r = 404 \/ code r = 500)%Z /\
    (auth w = false ->
     r = Handler.failure 500 "Server configuration error: Google Auth not initialized."
     /\ eff' = eff) /\
    (auth w = true -> nullish req_body = true ->
     (exists detail, r = Handler.failure_with 500 "Internal Server Error" detail)
     /\ eff' = eff) /\
    (auth w = true -> nullish req_body = false ->
     truthy (get req_body "analyticsId") = true ->
     convertible (get req_body "analyticsId") = false ->
     r = Handler.failure_with 500 "Internal Server Error" (message cannot_convert)
     /\ eff' = eff).
Proof.
  destruct (Handler.generateHealthRecommendations healthRecommendationPrompt String_of
              db w req_body eff) as [[r|e] eff'] eqn:Hrun.
  - exists r, eff'. split; [reflexivity|].
    run_cases Hrun.
    all: cbn [code Handler.failure Handler.failure_with Recommendation.no_content
              Handler.generated].
    all: flip_negb.
    all: repeat split; eauto; try congruence.
    all: try (destruct eff; reflexivity).
  - exfalso. run_cases Hrun.
Qed.

(** X13. A request that [generateHealthRecommendations] answers with 400
    or 404 has cost nothing: no token was fetched, nothing was posted
    upstream and nothing was written; at most the analytics row was read. *)
Theorem rejected_request_touches_nothing (req_body : value) (eff eff' : Handler.Effects)
    (r : Reply) :
  generateHealthRecommendations req_body eff = (Normal r, eff') ->
  (code r = 400 \/ code r = 404)%Z ->
  fst eff' = fst eff /\
  (snd eff' = snd eff \/
   snd eff' = snd eff ++ [Handler.AnalyticsFindByPk (get req_body "analyticsId")]).
Proof.
  intros Hrun Hcode.
  run_cases Hrun.
  all: cbn [code Handler.failure Handler.failure_with Recommendation.no_content
            Handler.generated] in Hcode.
  all: try (destruct Hcode; discriminate).
  all: split; [reflexivity|]; auto.
Qed.

(** X14. Whatever the reply is, [generateHealthRecommendations] writes at
    most once, and only text it has just generated: the values written are
    the [recommendationData] of the analytics row that was read, with the
    truthy text the Response Extractor found in what [generateWithVertexAI]
    returned for this request, and with status "generated". *)
Theorem only_generated_text_is_saved (req_body : value) (eff eff' : Handler.Effects)
    (r : Reply) :
  generateHealthRecommendations req_body eff = (Normal r, eff') ->
  exists devs,
    snd eff' = snd eff ++ devs /\
    (Handler.writes_of devs = [] \/
     exists analytics aiResp text,
       Handler.findByPk_reply db (snd eff) (get req_body "analyticsId") = Normal analytics /\
       Recommendation.generateWithVertexAI w
         (healthRecommendationPrompt (get (get analytics "diagnosis") "prediction")
            (get (get analytics "diagnosis") "confidence")) (fst eff)
       = (Normal aiResp, fst eff') /\
       extractAiText aiResp = Normal text /\
       truthy text = true /\
       Handler.writes_of devs = [Handler.recommendationData analytics text] /\
       get (Handler.recommendationData analytics text) "recommendations" = text /\
       get (Handler.recommendationData analytics text) "status" = VStr "generated").
Proof.
  intros Hrun.
  run_cases Hrun.
  all: flip_negb.
  all: try (exists []; split; [now rewrite app_nil_r|now left]).
  all: eexists; (split; [reflexivity|]).
  all: try (now left).
  all: right; do 3 eexists; repeat split; eauto.
Qed.

(** X15. When [generateHealthRecommendations] answers 200, the database
    was called exactly three times, in this order: the analytics row was
    read, the recommendation of that analytics was looked up, and then the
    row found was updated, or a new one created when none was found; the
    reply carries the text that was written, the [id] of the saved
    instance and the patient's name. *)
Theorem success_reply_reports_saved_text (req_body : value) (eff eff' : Handler.Effects)
    (r : Reply) :
  generateHealthRecommendations req_body eff = (Normal r, eff') ->
  code r = 200%Z ->
  exists analytics text found saved,
    Handler.findByPk_reply db (snd eff) (get req_body "analyticsId") = Normal analytics /\
    Handler.findOne_reply db
      (snd eff ++ [Handler.AnalyticsFindByPk (get req_body "analyticsId")])
      (get analytics "id") false = Normal found /\
    snd eff' = snd eff ++
      [Handler.AnalyticsFindByPk (get req_body "analyticsId");
       Handler.RecommendationFindOne (get analytics "id") false;
       if truthy found
       then Handler.RecommendationUpdate found (Handler.recommendationData analytics text)
       else Handler.RecommendationCreate (Handler.recommendationData analytics text)] /\
    (if truthy found
     then Handler.update_reply db
            (snd eff ++ [Handler.AnalyticsFindByPk (get req_body "analyticsId");
                         Handler.RecommendationFindOne (get analytics "id") false])
            found (Handler.recommendationData analytics text)
     else Handler.create_reply db
            (snd eff ++ [Handler.AnalyticsFindByPk (get req_body "analyticsId");
                         Handler.RecommendationFindOne (get analytics "id") false])
            (Handler.recommendationData analytics text)) = Normal saved /\
    truthy text = true /\
    get (get (json r) "data") "recommendations" = text /\
    get (get (json r) "data") "recommendationId" = get saved "id" /\
    get (get (json r) "data") "patientName" = get (get analytics "patient") "fullName" /\
    nullish (get analytics "patient") = false.
Proof.
  intros Hrun Hcode.
  run_cases Hrun.
  all: cbn [code Handler.failure Handler.failure_with Recommendation.no_content
            Handler.generated] in Hcode.
  all: try discriminate Hcode.
  all: flip_negb.
  all: rewrite <- ?app_assoc in *; cbn [app] in *.
  all: do 4 eexists; repeat split; eauto.
  all: repeat match goal with
         | Ht : truthy ?x = _ |- context [truthy ?x] => rewrite Ht
         end; eauto.
Qed.

(** X16. The reply is built after the write. When the analytics row comes
    without its patient, [generateHealthRecommendations] never answers 200,
    and a run that has written a recommendation answers 500 "Internal
    Server Error" all the same: the row stays saved. *)
Theorem saved_then_failed (req_body : value) (eff eff' : Handler.Effects) (r : Reply)
    (analytics : value) :
  generateHealthRecommendations req_body eff = (Normal r, eff') ->
  Handler.findByPk_reply db (snd eff) (get req_body "analyticsId") = Normal analytics ->
  nullish (get analytics "patient") = true ->
  code r <> 200%Z /\
  (forall values,
      Handler.writes_of (snd eff') = Handler.writes_of (snd eff) ++ [values] ->
      exists detail, r = Handler.failure_with 500 "Internal Server Error" detail).
Proof.
  intros Hrun Hrow Hpatient.
  run_cases Hrun.
  all: flip_negb.
  all: try congruence.
  all: split; [discriminate|].
  all: intros values Hw; rewrite ?writes_of_app in Hw; cbn in Hw.
  all: try (apply app_inv_head in Hw; discriminate Hw).
  all: try (rewrite <- (app_nil_r (Handler.writes_of (snd eff))) in Hw at 1;
            apply app_inv_head in Hw; discriminate Hw).
  all: eauto.
Qed.

(** X17. [getRecommendationByAnalytics] always answers, never writes and
    never reaches the token provider or the upstream. With parameters it
    makes exactly one lookup, for the identifier as it came (it is not
    validated), and answers 200 with the row found as it is, 404 when the
    lookup gave nothing, and 500 when the lookup raised. *)
Theorem getRecommendationByAnalytics_reads_only (req_params : value)
    (eff : Handler.Effects) :
  exists r eff',
    Handler.getRecommendationByAnalytics db req_params eff = (Normal r, eff') /\
    fst eff' = fst eff /\
    Handler.writes_of (snd eff') = Handler.writes_of (snd eff) /\
    (nullish req_params = true -> code r = 500%Z /\ eff' = eff) /\
    (nullish req_params = false ->
     snd eff' = snd eff ++
       [Handler.RecommendationFindOne (get req_params "analyticsId") true] /\
     r = match Handler.findOne_reply db (snd eff) (get req_params "analyticsId") true with
         | Normal row =>
             if truthy row then Handler.retrieved row
             else Handler.failure 404
                    "No recommendation found for this analytics. Please generate recommendations first."
         | Throw error =>
             Handler.failure_with 500 "Failed to retrieve recommendation" (message error)
         end).
Proof.
  destruct (Handler.getRecommendationByAnalytics db req_params eff) as [[r|e] eff'] eqn:Hrun.
  - exists r, eff'. split; [reflexivity|].
    run_cases Hrun.
    all: flip_negb.
    all: rewrite ?writes_of_app; cbn [Handler.writes_of flat_map Handler.written app].
    all: rewrite ?app_nil_r.
    all: repeat split; auto; try congruence.
    all: try (destruct eff; reflexivity).
    all: try (match goal with Ht : truthy _ = _ |- _ => rewrite Ht end; reflexivity).
  - exfalso. run_cases Hrun.
Qed.

(** X19. Serving one recommendation request costs at most one run of
    [generateWithVertexAI]: the upstream trace grows by nothing, or by one
    token fetch followed by at most one post per candidate (four with the
    hard-coded list). *)
Theorem generateHealthRecommendations_effects_bounded (req_body : value)
    (eff : Handler.Effects) :
  exists evs,
    fst (snd (generateHealthRecommendations req_body eff)) = fst eff ++ evs /\
    token_fetches evs <= 1 /\
    List.length (posts_of evs) <= 4 /\
    (evs = [] \/ exists reqs, evs = EvGetAccessToken :: map EvPost reqs).
Proof.
  assert (Hnone : exists evs,
            fst eff = fst eff ++ evs /\ token_fetches evs <= 1 /\
            List.length (posts_of evs) <= 4 /\
            (evs = [] \/ exists reqs, evs = EvGetAccessToken :: map EvPost reqs)).
  { exists []. rewrite app_nil_r. simpl. repeat split; auto; lia. }
  assert (Hcall : forall prompt c t,
            Recommendation.generateWithVertexAI w prompt (fst eff) = (c, t) ->
            exists evs,
              t = fst eff ++ evs /\ token_fetches evs <= 1 /\
              List.length (posts_of evs) <= 4 /\
              (evs = [] \/ exists reqs, evs = EvGetAccessToken :: map EvPost reqs)).
  { intros prompt c t Hrun.
    destruct (generateWithVertexAI_cost Recommendation.modelNames w prompt (fst eff))
      as (reqs & Hs & Hle).
    unfold Recommendation.generateWithVertexAI in Hrun. rewrite Hrun in Hs. simpl in Hs.
    exists (EvGetAccessToken :: map EvPost reqs). split; [exact Hs|].
    change (EvGetAccessToken :: map EvPost reqs)
      with ([EvGetAccessToken] ++ map EvPost reqs).
    rewrite token_fetches_app, token_fetches_posts, posts_of_app, posts_of_posts.
    simpl in Hle |- *. repeat split; try lia. right. now exists reqs. }
  destruct (Handler.generateHealthRecommendations healthRecommendationPrompt String_of
              db w req_body eff) as [res eff'] eqn:Hrun.
  cbn [snd].
  unfold_handler Hrun;
    repeat (cbn beta iota in Hrun; cbn [fst snd] in Hrun; innermost_case Hrun);
    cbn beta iota in Hrun; injection Hrun as <- <-; cbn [fst snd].
  all: try exact Hnone.
  all: eapply Hcall; eassumption.
Qed.

End HandlerFacts.


(** Requests for the witnesses: analytics 3 of a patient, no recommendation
    stored yet, and an upstream whose first candidate answers with text. *)
Lemma rejected_request_touches_nothing_witness :
  let db := Handler.one_analytics VNull VNull in
  let eff' : Handler.Effects := ([], [Handler.AnalyticsFindByPk (VNum 3)]) in
  fst eff' = [] /\
  (snd eff' = [] \/
   snd eff' = [] ++ [Handler.AnalyticsFindByPk
                       (get (VObj [("analyticsId", VNum 3)]) "analyticsId")]).
Proof.
  intros db eff'.
  exact (rejected_request_touches_nothing (fun _ _ => "prompt") message db (scripted [])
           (VObj [("analyticsId", VNum 3)]) ([], []) eff'
           (Handler.failure 404 "Analytics not found with the provided ID.")
           eq_refl (or_intror eq_refl)).
Defined.

Lemma only_generated_text_is_saved_witness :
  let db := Handler.one_analytics
              (Handler.analytics_row (VObj [("fullName", VStr "Ada")])) VNull in
  let w := scripted [ok (envelope (VStr "Drink water."))] in
  let req_body := VObj [("analyticsId", VNum 3)] in
  let run := Handler.generateHealthRecommendations (fun _ _ => "prompt") message db w
               req_body ([], []) in
  exists devs,
    snd (snd run) = [] ++ devs /\
    (Handler.writes_of devs = [] \/
     exists analytics aiResp text,
       Handler.findByPk_reply db [] (get req_body "analyticsId") = Normal analytics /\
       Recommendation.generateWithVertexAI w "prompt" [] = (Normal aiResp, fst (snd run)) /\
       extractAiText aiResp = Normal text /\
       truthy text = true /\
       Handler.writes_of devs = [Handler.recommendationData analytics text] /\
       get (Handler.recommendationData analytics text) "recommendations" = text /\
       get (Handler.recommendationData analytics text) "status" = VStr "generated").
Proof.
  intros db w req_body run.
  exact (only_generated_text_is_saved (fun _ _ => "prompt") message db w req_body
           ([], []) (snd run)
           (match fst run with Normal r => r | Throw _ => Handler.failure 500 "" end)
           eq_refl).
Defined.

Lemma success_reply_reports_saved_text_witness :
  let db := Handler.one_analytics
              (Handler.analytics_row (VObj [("fullName", VStr "Ada")])) VNull in
  let w := scripted [ok (envelope (VStr "Drink water."))] in
  let req_body := VObj [("analyticsId", VNum 3)] in
  let run := Handler.generateHealthRecommendations (fun _ _ => "prompt") message db w
               req_body ([], []) in
  let r := match fst run with Normal r => r | Throw _ => Handler.failure 500 "" end in
  exists analytics text found saved,
    Handler.findByPk_reply db [] (get req_body "analyticsId") = Normal analytics /\
    Handler.findOne_reply db
      ([] ++ [Handler.AnalyticsFindByPk (get req_body "analyticsId")])
      (get analytics "id") false = Normal found /\
    snd (snd run) = [] ++
      [Handler.AnalyticsFindByPk (get req_body "analyticsId");
       Handler.RecommendationFindOne (get analytics "id") false;
       if truthy found
       then Handler.RecommendationUpdate found (Handler.recommendationData analytics text)
       else Handler.RecommendationCreate (Handler.recommendationData analytics text)] /\
    (if truthy found
     then Handler.update_reply db
            ([] ++ [Handler.AnalyticsFindByPk (get req_body "analyticsId");
                    Handler.RecommendationFindOne (get analytics "id") false])
            found (Handler.recommendationData analytics text)
     else Handler.create_reply db
            ([] ++ [Handler.AnalyticsFindByPk (get req_body "analyticsId");
                    Handler.RecommendationFindOne (get analytics "id") false])
            (Handler.recommendationData analytics text)) = Normal saved /\
    truthy text = true /\
    get (get (json r) "data") "recommendations" = text /\
    get (get (json r) "data") "recommendationId" = get saved "id" /\
    get (get (json r) "data") "patientName" = get (get analytics "patient") "fullName" /\
    nullish (get analytics "patient") = false.
Proof.
  intros db w req_body run r.
  exact (success_reply_reports_saved_text (fun _ _ => "prompt") message db w req_body
           ([], []) (snd run) r eq_refl eq_refl).
Defined.

(** The analytics row has no patient: the recommendation is created and
    the reply is 500. *)
Lemma saved_then_failed_witness :
  let db := Handler.one_analytics (Handler.analytics_row VNull) VNull in
  let w := scripted [ok (envelope (VStr "Drink water."))] in
  let req_body := VObj [("analyticsId", VNum 3)] in
  let run := Handler.generateHealthRecommendations (fun _ _ => "prompt") message db w
               req_body ([], []) in
  let r := match fst run with Normal r => r | Throw _ => Handler.failure 200 "" end in
  Handler.writes_of (snd (snd run))
  = [Handler.recommendationData (Handler.analytics_row VNull) (VStr "Drink water.")] /\
  code r <> 200%Z /\
  exists detail, r = Handler.failure_with 500 "Internal Server Error" detail.
Proof.
  intros db w req_body run r.
  destruct (saved_then_failed (fun _ _ => "prompt") message db w req_body
              ([], []) (snd run) r (Handler.analytics_row VNull) eq_refl eq_refl eq_refl)
    as [Hcode Hsaved].
  split; [reflexivity|]. split; [exact Hcode|].
  exact (Hsaved _ eq_refl).
Defined.

(** An [analyticsId] that cannot be printed is answered 500 before the
    database is asked. *)
Example unprintable_analyticsId :
  Handler.generateHealthRecommendations (fun _ _ => "prompt") String_of_Error
    (Handler.one_analytics (Handler.analytics_row VNull) VNull)
    (scripted [ok (envelope (VStr "Drink water."))])
    (VObj [("analyticsId", VObj [("toString", VNum 1)])]) ([], [])
  = (Normal (Handler.failure_with 500 "Internal Server Error"
               "Cannot convert object to primitive value"), ([], [])).
Proof. reflexivity. Qed.
